(** * Incident response planner and threat classifier of the smart-city
      security dashboard

    A shallow embedding of [frontend/src/utils/incidentResponse.js] and
    [frontend/src/utils/threatDetection.js].

    Conventions of the embedding.
    - The clock ([new Date()], [Date.now()]) and the random source
      ([Math.random()]) are explicit arguments: a reading [now : time] in
      epoch milliseconds and a draw [r] with [0 <= r < 1].
    - Phase durations are JavaScript Numbers whose value is decided by
      binary64 rounding ([45 * 0.7] is [31.499999999999996]); they are
      primitive floats.  Scores, confidences, progress percentages and
      differences of timestamps are exact rationals or integers.
    - A call that raises a [TypeError] is a [Throw] in the [result] monad.
    - [{ ...plan }] copies one level only: the timeline, the steps and the
      notes of the copy are the objects of the argument.  The functions
      below return the record as it stands after the call. *)

From Stdlib Require Import ZArith QArith Qround Qminmax List String Bool Lia Lqa.
From Stdlib Require Import Floats DecimalString.
Import ListNotations.

Set Warnings "-inexact-float".

Local Open Scope string_scope.
Local Open Scope Z_scope.

(** ** JavaScript numbers of the timeline: binary64 *)

Module JsNumber.

(** The integer [z] as a double (exact for [|z| < 2^53]). *)
Definition of_Z (z : Z) : float :=
  match z with
  | Z0 => PrimFloat.zero
  | Zpos _ => PrimFloat.of_uint63 (Uint63.of_Z z)
  | Zneg _ => PrimFloat.opp (PrimFloat.of_uint63 (Uint63.of_Z (- z)))
  end.

(** [Math.round]: the integer closest to [x], ties towards +infinity;
    zeros, infinities and NaN are returned as they are, and a negative
    argument that rounds to zero gives [-0]. *)
Definition Math_round (x : float) : float :=
  match Prim2SF x with
  | S754_finite s m e =>
      if 0 <=? e then x
      else
        let n := if s then Z.neg m else Z.pos m in
        let r := (2 * n + 2 ^ (- e)) / 2 ^ (- e + 1) in
        if (r =? 0) && s then PrimFloat.neg_zero else of_Z r
  | _ => x
  end.

(** The value of a double that holds an integer; [None] for NaN, the
    infinities and non-integers. *)
Definition to_Z (x : float) : option Z :=
  match Prim2SF x with
  | S754_zero _ => Some 0
  | S754_finite s m e =>
      let n := if s then Z.neg m else Z.pos m in
      if 0 <=? e then Some (n * 2 ^ e)
      else if (n mod 2 ^ (- e) =? 0) then Some (n / 2 ^ (- e)) else None
  | _ => None
  end.

Definition isNaN (x : float) : bool := negb (PrimFloat.eqb x x).

End JsNumber.


(** Epoch milliseconds, the value of a [Date]. *)
Definition time := Z.

(** A JavaScript value that is a string or [undefined] (or anything else
    that is [===] to no string): [None] stands for the latter. *)
Definition jsstring := option string.

(** [x === c] for a string constant [c]. *)
Definition strict_eq (x : jsstring) (c : string) : bool :=
  match x with
  | Some s => String.eqb s c
  | None => false
  end.

Notation "x === c" := (strict_eq x c) (at level 70, no associativity).

(** [x > y] on rationals. *)
Definition Qgtb (x y : Q) : bool := negb (Qle_bool x y).

(** ** threatDetection.js *)

Module ThreatDetection.

Module SEVERITY.
Definition LOW := "low".
Definition MEDIUM := "medium".
Definition HIGH := "high".
Definition CRITICAL := "critical".
End SEVERITY.

Module THREAT_TYPES.
Definition UNAUTHORIZED_ACCESS := "Unauthorized Access".
Definition DATA_MANIPULATION := "Data Manipulation".
Definition DENIAL_OF_SERVICE := "Denial of Service".
Definition MALWARE := "Malware Infection".
Definition RANSOMWARE := "Ransomware".
Definition FIRMWARE_TAMPERING := "Firmware Tampering".
Definition COMMUNICATION_HIJACKING := "Communication Hijacking".
Definition CREDENTIAL_THEFT := "Credential Theft".
Definition PHYSICAL_TAMPERING := "Physical Tampering".
Definition SOCIAL_ENGINEERING := "Social Engineering".
End THREAT_TYPES.

Module THREAT_STATUS.
Definition NEW := "new".
Definition DETECTED := "detected".
End THREAT_STATUS.

Record Device := {
  device_id : jsstring;
  device_name : jsstring;
  device_type : jsstring
}.

(** The record returned by [analyzeDeviceBehavior].  [anomalyScore] is
    optional because callers of [classifyThreat] may pass an object
    without it. *)
Record Behavior := {
  b_deviceId : jsstring;
  anomalyScore : option Q;
  patterns : list string;
  b_timestamp : time;
  isAnomaly : bool
}.

(** [analyzeDeviceBehavior(device)], with [score] the value drawn by
    [Math.random()]. *)
Definition analyzeDeviceBehavior (device : Device) (now : time) (score : Q)
  : Behavior :=
  let patterns :=
    if (device_type device === "camera") && Qgtb score (7 # 10) then
      ["Unusual access pattern"; "Irregular data transmission"]
    else if (device_type device === "trafficLight") && Qgtb score (8 # 10) then
      ["Signal timing manipulation"; "Unexpected configuration changes"]
    else if (device_type device === "waterSensor") && Qgtb score (75 # 100) then
      ["Reading fluctuation outside normal parameters"; "Calibration drift"]
    else if Qgtb score (9 # 10) then
      ["Communication protocol violation"; "Unexpected firmware behavior"]
    else [] in
  {| b_deviceId := device_id device;
     anomalyScore := Some score;
     patterns := patterns;
     b_timestamp := now;
     isAnomaly := Qgtb score (7 # 10) |}.

Record Classification := {
  c_type : jsstring;
  c_severity : jsstring;
  c_confidence : Q;
  impactLevel : string;
  c_description : string;
  c_recommendedActions : list string;
  c_timestamp : time;
  c_status : string
}.

(** The guard [behavior && behavior.anomalyScore]: an absent record, an
    absent field and the score [0] are all falsy. *)
Definition confidenceOf (behavior : option Behavior) : Q :=
  match behavior with
  | Some b =>
      match anomalyScore b with
      | Some a => if Qeq_bool a 0 then 7 # 10 else (5 # 10) + a * (4 # 10)
      | None => 7 # 10
      end
  | None => 7 # 10
  end.

Definition impactLevelOf (severity : jsstring) : string :=
  if severity === SEVERITY.CRITICAL then "severe"
  else if severity === SEVERITY.HIGH then "significant"
  else if severity === SEVERITY.MEDIUM then "moderate"
  else if severity === SEVERITY.LOW then "minor"
  else "unknown".

(** The [switch (threatType)] of [classifyThreat]: description and
    recommended actions. *)
Definition threatProfile (threatType : jsstring) : string * list string :=
  if threatType === THREAT_TYPES.UNAUTHORIZED_ACCESS then
    ("Unauthorized access attempt detected with unusual authentication patterns",
     ["Lock affected accounts"; "Force password reset"; "Review access logs";
      "Enable additional authentication factors"])
  else if threatType === THREAT_TYPES.DATA_MANIPULATION then
    ("Abnormal data modification detected outside of expected parameters",
     ["Restore from backup"; "Verify data integrity"; "Audit recent changes";
      "Implement additional validation checks"])
  else if threatType === THREAT_TYPES.FIRMWARE_TAMPERING then
    ("Unauthorized firmware modifications or configuration changes detected",
     ["Restore original firmware"; "Isolate affected device";
      "Scan for malicious code"; "Update security patches"])
  else if threatType === THREAT_TYPES.COMMUNICATION_HIJACKING then
    ("Abnormal communication patterns indicating potential hijacking",
     ["Isolate affected systems"; "Reset communication channels";
      "Implement additional encryption"; "Monitor for unusual traffic patterns"])
  else if threatType === THREAT_TYPES.MALWARE then
    ("Malicious software detected with abnormal system behavior",
     ["Isolate affected systems"; "Run full system scan";
      "Remove identified malware"; "Update antivirus definitions"])
  else if threatType === THREAT_TYPES.RANSOMWARE then
    ("Potential ransomware activity with file encryption patterns",
     ["Disconnect from network immediately"; "Isolate affected systems";
      "Restore from clean backups"; "Report to authorities"])
  else if threatType === THREAT_TYPES.DENIAL_OF_SERVICE then
    ("Abnormal traffic patterns indicating potential DoS attack",
     ["Implement traffic filtering"; "Scale resources if possible";
      "Contact network provider"; "Analyze traffic patterns"])
  else if threatType === THREAT_TYPES.CREDENTIAL_THEFT then
    ("Suspicious authentication attempts indicating credential theft",
     ["Force password reset"; "Enable multi-factor authentication";
      "Review access logs"; "Monitor for unusual account activity"])
  else
    ("Unknown threat type detected with suspicious behavior",
     ["Monitor system activity"; "Backup critical data"; "Review security logs";
      "Prepare for escalation if needed"]).

Definition classifyThreat (threatType severity : jsstring)
    (behavior : option Behavior) (now : time) : Classification :=
  let confidence := confidenceOf behavior in
  let impact := impactLevelOf severity in
  let '(description, recommendedActions) := threatProfile threatType in
  {| c_type := threatType;
     c_severity := severity;
     c_confidence := confidence;
     impactLevel := impact;
     c_description := description;
     c_recommendedActions := recommendedActions;
     c_timestamp := now;
     c_status := THREAT_STATUS.DETECTED |}.

Definition determineAffectedSystems (device : Device) (threatType : jsstring)
  : list string :=
  (if device_type device === "trafficLight" then
     "Traffic Management System" ::
     (if threatType === THREAT_TYPES.COMMUNICATION_HIJACKING
      then ["Emergency Vehicle Routing"] else [])
   else if device_type device === "camera" then
     "Video Surveillance Network" ::
     (if threatType === THREAT_TYPES.UNAUTHORIZED_ACCESS
      then ["Facial Recognition System"] else [])
   else if device_type device === "waterSensor" then
     "Water Quality Monitoring" ::
     (if threatType === THREAT_TYPES.DATA_MANIPULATION
      then ["Public Health Alert System"] else [])
   else [])
  ++ (if (threatType === THREAT_TYPES.MALWARE) || (threatType === THREAT_TYPES.RANSOMWARE)
      then ["City Network Infrastructure"] else []).

Definition determinePotentialImpact (severity deviceType : jsstring) : string :=
  if severity === SEVERITY.CRITICAL then
    if deviceType === "trafficLight" then
      "Potential for traffic accidents, gridlock, and public safety hazards"
    else if deviceType === "camera" then
      "Complete surveillance blindspot, potential for undetected criminal activity"
    else if deviceType === "waterSensor" then
      "Undetected water contamination, public health emergency risk"
    else "Severe disruption to city services and potential safety hazards"
  else if severity === SEVERITY.HIGH then
    if deviceType === "trafficLight" then
      "Traffic disruption and increased accident risk"
    else if deviceType === "camera" then
      "Surveillance system compromise, security vulnerability"
    else if deviceType === "waterSensor" then
      "Inaccurate water quality data, delayed contamination detection"
    else "Significant disruption to affected systems"
  else if severity === SEVERITY.MEDIUM then
    "Moderate service disruption and potential for escalation if unaddressed"
  else "Minor service disruption, minimal immediate impact".

Definition generateRecommendedActions (threatType severity : jsstring)
    (device : Device) : list string :=
  let critical := severity === SEVERITY.CRITICAL in
  let high := severity === SEVERITY.HIGH in
  ["Isolate affected device from network";
   "Capture current device state for forensic analysis"]
  ++ (if threatType === THREAT_TYPES.UNAUTHORIZED_ACCESS then
        ["Reset all access credentials";
         "Review access logs for suspicious patterns"]
        ++ (if critical || high
            then ["Implement additional authentication measures"] else [])
      else if threatType === THREAT_TYPES.DATA_MANIPULATION then
        ["Restore data from last known good backup";
         "Verify data integrity across connected systems"]
        ++ (if critical
            then ["Manually verify sensor readings with physical inspection"]
            else [])
      else if threatType === THREAT_TYPES.FIRMWARE_TAMPERING then
        ["Reflash device with verified firmware";
         "Implement firmware signature verification"]
      else if (threatType === THREAT_TYPES.MALWARE)
              || (threatType === THREAT_TYPES.RANSOMWARE) then
        ["Deploy anti-malware countermeasures";
         "Scan connected systems for infection spread"]
        ++ (if critical || high then ["Activate incident response team"] else [])
      else [])
  ++ (if critical then
        ["Notify city emergency response coordinator";
         "Prepare public communication if services are affected"]
      else [])
  ++ (if (device_type device === "trafficLight") && (critical || high) then
        ["Switch to manual traffic control if necessary"]
      else if (device_type device === "camera")
              && (threatType === THREAT_TYPES.UNAUTHORIZED_ACCESS) then
        ["Review recorded footage for evidence of tampering"]
      else []).

(** The argument of [generateThreatAlert]: the three fields it
    destructures.  A field the caller's object lacks is [None]. *)
Record ThreatData := {
  td_threatType : jsstring;
  td_severity : jsstring;
  td_confidence : option Q
}.

(** The object [classifyThreat] returns, read as the argument of
    [generateThreatAlert]: it has [type], not [threatType]. *)
Definition threatDataOfClassification (c : Classification) : ThreatData :=
  {| td_threatType := None;
     td_severity := c_severity c;
     td_confidence := Some (c_confidence c) |}.

Record ThreatAlert := {
  a_id : jsstring;
  a_type : jsstring;
  a_deviceId : jsstring;
  a_deviceName : jsstring;
  a_deviceType : jsstring;
  a_threatType : jsstring;
  a_severity : jsstring;
  a_confidence : option Q;
  a_confidenceBand : string;
  a_timestamp : time;
  a_status : string;
  a_recommendedActions : list string;
  a_affectedSystems : option (list string);
  a_potentialImpact : string;
  riskScore : option Q;
  a_mitigationStatus : string
}.

(** Digits of [Number.prototype.toString(36)], upper-cased. *)
Definition digit36 (d : Z) : string :=
  String.substring (Z.to_nat d) 1 "0123456789ABCDEFGHIJKLMNOPQRSTUVWXYZ".

Fixpoint toString36 (fuel : nat) (n : Z) (acc : string) : string :=
  match fuel with
  | O => acc
  | S fuel' =>
      let acc' := digit36 (n mod 36) ++ acc in
      if n / 36 =? 0 then acc' else toString36 fuel' (n / 36) acc'
  end.

Definition incidentIdOf (now : time) : string :=
  "INC-" ++ (if now <? 0 then "-" else "")
         ++ toString36 (S (Z.to_nat (Z.log2 (Z.abs now)))) (Z.abs now) "".

(** The confidence band embedded in the description: [undefined > 0.8]
    is false. *)
Definition confidenceBand (confidence : option Q) : string :=
  match confidence with
  | Some c => if Qgtb c (8 # 10) then "high"
              else if Qgtb c (6 # 10) then "moderate" else "low"
  | None => "low"
  end.

(** The [switch (severity)] of [generateThreatAlert], with [r] the value
    drawn by [Math.random()]. *)
Definition baseRiskScore (severity : jsstring) (r : Q) : Z :=
  if severity === SEVERITY.CRITICAL then 90 + Qfloor (r * 10)
  else if severity === SEVERITY.HIGH then 70 + Qfloor (r * 20)
  else if severity === SEVERITY.MEDIUM then 40 + Qfloor (r * 30)
  else if severity === SEVERITY.LOW then 10 + Qfloor (r * 30)
  else 5 + Qfloor (r * 15).

(** [Math.min(99, riskScore + confidence * 10)]; an [undefined]
    confidence makes the sum, and the minimum, NaN ([None]). *)
Definition adjustRiskScore (base : Z) (confidence : option Q) : option Q :=
  match confidence with
  | Some c => Some (Qmin 99 (inject_Z base + c * 10))
  | None => None
  end.

(** [generateThreatAlert(device, threatData)].  The description text is
    represented by its confidence band. *)
Definition generateThreatAlert (device : Device) (threatData : ThreatData)
    (now : time) (r : Q) : ThreatAlert :=
  let threatType := td_threatType threatData in
  let severity := td_severity threatData in
  let confidence := td_confidence threatData in
  {| a_id := Some (incidentIdOf now);
     a_type := None;
     a_deviceId := device_id device;
     a_deviceName := device_name device;
     a_deviceType := device_type device;
     a_threatType := threatType;
     a_severity := severity;
     a_confidence := confidence;
     a_confidenceBand := confidenceBand confidence;
     a_timestamp := now;
     a_status := THREAT_STATUS.NEW;
     a_recommendedActions := generateRecommendedActions threatType severity device;
     a_affectedSystems := Some (determineAffectedSystems device threatType);
     a_potentialImpact := determinePotentialImpact severity (device_type device);
     riskScore := adjustRiskScore (baseRiskScore severity r) confidence;
     a_mitigationStatus := "pending" |}.

Definition includes (xs : list string) (x : string) : bool :=
  existsb (String.eqb x) xs.

(** [simulateAIDetection(device)]: [score] is the draw of
    [analyzeDeviceBehavior], [r] the draw of [generateThreatAlert];
    [None] is the [null] result. *)
Definition simulateAIDetection (device : Device) (now : time) (score r : Q)
  : option ThreatAlert :=
  let anomalyData := analyzeDeviceBehavior device now score in
  if negb (isAnomaly anomalyData) then None
  else
    let '(threatType, severity) :=
      if includes (patterns anomalyData) "Unusual access pattern" then
        (THREAT_TYPES.UNAUTHORIZED_ACCESS, SEVERITY.HIGH)
      else if includes (patterns anomalyData) "Signal timing manipulation" then
        (THREAT_TYPES.DATA_MANIPULATION, SEVERITY.CRITICAL)
      else if includes (patterns anomalyData)
                "Reading fluctuation outside normal parameters" then
        (THREAT_TYPES.DATA_MANIPULATION, SEVERITY.MEDIUM)
      else if includes (patterns anomalyData) "Communication protocol violation" then
        (THREAT_TYPES.COMMUNICATION_HIJACKING, SEVERITY.HIGH)
      else if includes (patterns anomalyData) "Unexpected firmware behavior" then
        (THREAT_TYPES.FIRMWARE_TAMPERING, SEVERITY.CRITICAL)
      else (THREAT_TYPES.UNAUTHORIZED_ACCESS, SEVERITY.MEDIUM) in
    let threatData :=
      classifyThreat (Some threatType) (Some severity) (Some anomalyData) now in
    Some (generateThreatAlert device (threatDataOfClassification threatData) now r).

End ThreatDetection.

(** ** Exceptions *)

Inductive exn : Type :=
| TypeError (msg : string).

Inductive result (A : Type) : Type :=
| Ok (a : A)
| Throw (e : exn).

Arguments Ok {A} a.
Arguments Throw {A} e.

Definition bind {A B : Type} (m : result A) (k : A -> result B) : result B :=
  match m with
  | Ok a => k a
  | Throw e => Throw e
  end.

Notation "x <- m ;; k" := (bind m (fun x => k))
  (at level 61, m at next level, right associativity).

(** [xs.forEach(f)] for a body that may throw: the first exception ends
    the loop. *)
Fixpoint mapM {A B : Type} (f : A -> result B) (xs : list A) : result (list B) :=
  match xs with
  | [] => Ok []
  | x :: xs' => y <- f x ;; ys <- mapM f xs' ;; Ok (y :: ys)
  end.

(** ** incidentResponse.js *)

Module IncidentResponse.

Import ThreatDetection.

Module RESPONSE_TEAMS.
Definition TIER1 := "Tier 1 - Initial Response".
Definition TIER2 := "Tier 2 - Technical Response".
Definition TIER3 := "Tier 3 - Advanced Response".
Definition FORENSICS := "Digital Forensics Team".
Definition PHYSICAL := "Physical Security Team".
Definition MANAGEMENT := "Crisis Management Team".
End RESPONSE_TEAMS.

(** [RESPONSE_PHASES], in the order of [Object.keys]. *)
Inductive Phase : Type :=
| IDENTIFICATION | CONTAINMENT | ERADICATION | RECOVERY | LESSONS_LEARNED.

Definition phases : list Phase :=
  [IDENTIFICATION; CONTAINMENT; ERADICATION; RECOVERY; LESSONS_LEARNED].

(** [RESPONSE_PHASES[key]]: the value of a phase. *)
Definition phaseName (p : Phase) : string :=
  match p with
  | IDENTIFICATION => "identification"
  | CONTAINMENT => "containment"
  | ERADICATION => "eradication"
  | RECOVERY => "recovery"
  | LESSONS_LEARNED => "lessons_learned"
  end.

(** [phases.indexOf(phase.toUpperCase())]. *)
Definition phaseIndex (p : Phase) : Z :=
  match p with
  | IDENTIFICATION => 0
  | CONTAINMENT => 1
  | ERADICATION => 2
  | RECOVERY => 3
  | LESSONS_LEARNED => 4
  end.

Definition Phase_eqb (p q : Phase) : bool := phaseIndex p =? phaseIndex q.

(** [RESPONSE_STATUS]. *)
Inductive Status : Type :=
| PENDING | IN_PROGRESS | COMPLETED | FAILED.

Definition Status_eqb (s t : Status) : bool :=
  match s, t with
  | PENDING, PENDING | IN_PROGRESS, IN_PROGRESS
  | COMPLETED, COMPLETED | FAILED, FAILED => true
  | _, _ => false
  end.

(** One entry of the timeline; [None] is [null]. *)
Record PhaseEntry := {
  estimatedDuration : float;
  phase_startTime : option time;
  phase_endTime : option time;
  phase_status : Status
}.

(** The timeline object: one entry per phase, in insertion order. *)
Record Timeline := {
  identification : PhaseEntry;
  containment : PhaseEntry;
  eradication : PhaseEntry;
  recovery : PhaseEntry;
  lessons_learned : PhaseEntry
}.

(** [timeline[phase]]. *)
Definition entry (t : Timeline) (p : Phase) : PhaseEntry :=
  match p with
  | IDENTIFICATION => identification t
  | CONTAINMENT => containment t
  | ERADICATION => eradication t
  | RECOVERY => recovery t
  | LESSONS_LEARNED => lessons_learned t
  end.

(** [timeline[phase] = e] (used for the in-place field assignments). *)
Definition setEntry (t : Timeline) (p : Phase) (e : PhaseEntry) : Timeline :=
  match p with
  | IDENTIFICATION =>
      {| identification := e; containment := containment t;
         eradication := eradication t; recovery := recovery t;
         lessons_learned := lessons_learned t |}
  | CONTAINMENT =>
      {| identification := identification t; containment := e;
         eradication := eradication t; recovery := recovery t;
         lessons_learned := lessons_learned t |}
  | ERADICATION =>
      {| identification := identification t; containment := containment t;
         eradication := e; recovery := recovery t;
         lessons_learned := lessons_learned t |}
  | RECOVERY =>
      {| identification := identification t; containment := containment t;
         eradication := eradication t; recovery := e;
         lessons_learned := lessons_learned t |}
  | LESSONS_LEARNED =>
      {| identification := identification t; containment := containment t;
         eradication := eradication t; recovery := recovery t;
         lessons_learned := e |}
  end.

(** [Object.values(timeline)]. *)
Definition values (t : Timeline) : list PhaseEntry := map (entry t) phases.

(** [severityMultiplier[severity]].  A key that is not in the table
    gives [undefined] (or an inherited member of [Object.prototype]),
    and a Number times that is NaN: the multiplier is NaN then. *)
Definition severityMultiplier (severity : jsstring) : float :=
  if severity === SEVERITY.LOW then 0.7
  else if severity === SEVERITY.MEDIUM then 1.0
  else if severity === SEVERITY.HIGH then 1.5
  else if severity === SEVERITY.CRITICAL then 2.0
  else PrimFloat.nan.

Definition pendingEntry (d : float) : PhaseEntry :=
  {| estimatedDuration := d; phase_startTime := None; phase_endTime := None;
     phase_status := PENDING |}.

Definition createResponseTimeline (threatType severity : jsstring) : Timeline :=
  let identificationTime := 15%float in
  let containmentTime := 30%float in
  let eradicationTime := 45%float in
  let recoveryTime := 30%float in
  let lessonsLearnedTime := 60%float in
  let multiplier := severityMultiplier severity in
  let '(identificationTime, eradicationTime, recoveryTime) :=
    if (threatType === THREAT_TYPES.RANSOMWARE) || (threatType === THREAT_TYPES.MALWARE)
    then (identificationTime, eradicationTime * 1.5, recoveryTime * 1.5)%float
    else if threatType === THREAT_TYPES.FIRMWARE_TAMPERING
    then (identificationTime, eradicationTime * 1.3, recoveryTime * 1.2)%float
    else if threatType === THREAT_TYPES.DATA_MANIPULATION
    then (identificationTime * 1.2, eradicationTime * 1.1, recoveryTime)%float
    else (identificationTime, eradicationTime, recoveryTime) in
  {| identification :=
       pendingEntry (JsNumber.Math_round (identificationTime * multiplier));
     containment :=
       pendingEntry (JsNumber.Math_round (containmentTime * multiplier));
     eradication :=
       pendingEntry (JsNumber.Math_round (eradicationTime * multiplier));
     recovery :=
       pendingEntry (JsNumber.Math_round (recoveryTime * multiplier));
     lessons_learned :=
       pendingEntry (JsNumber.Math_round (lessonsLearnedTime * multiplier)) |}.

Definition calculateEstimatedCompletionTime (timeline : Timeline) : float :=
  fold_left (fun total phase => (total + estimatedDuration phase)%float)
            (values timeline) 0%float.

(** The values that reach the two parameters of [generateResponseSteps]
    from its callers. *)
Inductive value : Type :=
| VUndefined
| VString (s : string)
| VArray (xs : list string)
| VAlert (a : ThreatAlert)
| VTimeline (t : Timeline).


(** Members every object literal inherits from [Object.prototype]. *)
Definition objectPrototypeKeys : list string :=
  ["constructor"; "__proto__"; "hasOwnProperty"; "isPrototypeOf";
   "propertyIsEnumerable"; "toLocaleString"; "toString"; "valueOf";
   "__defineGetter__"; "__defineSetter__"; "__lookupGetter__";
   "__lookupSetter__"].

(** The outcome of [table[key]] on an object literal. *)
Inductive property (A : Type) : Type :=
| Own (a : A)
| Inherited
| Absent.

Arguments Own {A} a.
Arguments Inherited {A}.
Arguments Absent {A}.

Definition getProperty {A : Type} (table : list (string * A)) (key : string)
  : property A :=
  match find (fun kv => String.eqb (fst kv) key) table with
  | Some kv => Own (snd kv)
  | None => if includes objectPrototypeKeys key then Inherited else Absent
  end.

Definition phaseMap : list (string * Phase) :=
  [("Isolate affected device from network", CONTAINMENT);
   ("Capture current device state for forensic analysis", IDENTIFICATION);
   ("Reset all access credentials", ERADICATION);
   ("Review access logs for suspicious patterns", IDENTIFICATION);
   ("Implement additional authentication measures", RECOVERY);
   ("Restore data from last known good backup", RECOVERY);
   ("Verify data integrity across connected systems", RECOVERY);
   ("Manually verify sensor readings with physical inspection", IDENTIFICATION);
   ("Reflash device with verified firmware", ERADICATION);
   ("Implement firmware signature verification", RECOVERY);
   ("Deploy anti-malware countermeasures", ERADICATION);
   ("Scan connected systems for infection spread", CONTAINMENT);
   ("Activate incident response team", IDENTIFICATION);
   ("Notify city emergency response coordinator", IDENTIFICATION);
   ("Prepare public communication if services are affected", CONTAINMENT);
   ("Switch to manual traffic control if necessary", CONTAINMENT);
   ("Review recorded footage for evidence of tampering", IDENTIFICATION)].

Definition teamMap : list (string * string) :=
  [("Isolate affected device from network", RESPONSE_TEAMS.TIER1);
   ("Capture current device state for forensic analysis", RESPONSE_TEAMS.FORENSICS);
   ("Reset all access credentials", RESPONSE_TEAMS.TIER2);
   ("Review access logs for suspicious patterns", RESPONSE_TEAMS.TIER2);
   ("Implement additional authentication measures", RESPONSE_TEAMS.TIER3);
   ("Restore data from last known good backup", RESPONSE_TEAMS.TIER2);
   ("Verify data integrity across connected systems", RESPONSE_TEAMS.TIER2);
   ("Manually verify sensor readings with physical inspection", RESPONSE_TEAMS.PHYSICAL);
   ("Reflash device with verified firmware", RESPONSE_TEAMS.TIER3);
   ("Implement firmware signature verification", RESPONSE_TEAMS.TIER3);
   ("Deploy anti-malware countermeasures", RESPONSE_TEAMS.TIER2);
   ("Scan connected systems for infection spread", RESPONSE_TEAMS.TIER2);
   ("Activate incident response team", RESPONSE_TEAMS.MANAGEMENT);
   ("Notify city emergency response coordinator", RESPONSE_TEAMS.MANAGEMENT);
   ("Prepare public communication if services are affected", RESPONSE_TEAMS.MANAGEMENT);
   ("Switch to manual traffic control if necessary", RESPONSE_TEAMS.PHYSICAL);
   ("Review recorded footage for evidence of tampering", RESPONSE_TEAMS.FORENSICS)].

Record Step := {
  step_id : string;
  step_description : string;
  step_phase : Phase;
  assignedTeam : string;
  step_status : Status;
  step_estimatedDuration : float;
  step_startTime : option time;
  step_endTime : option time
}.

Definition stepId (n : nat) : string :=
  "step-" ++ NilZero.string_of_uint (Nat.to_uint n).

(** [timeline[phase]] followed by the read of [.estimatedDuration]: only
    a timeline object has an entry under a phase name; on anything else
    the entry is [undefined] (or [timeline] itself is) and the read
    throws. *)
Definition phaseEntryOf (timeline : value) (p : Phase) : result PhaseEntry :=
  match timeline with
  | VTimeline t => Ok (entry t p)
  | VUndefined =>
      Throw (TypeError "Cannot read properties of undefined")
  | VString _ | VArray _ | VAlert _ =>
      Throw (TypeError "Cannot read properties of undefined (reading 'estimatedDuration')")
  end.

(** The body of the [forEach] of [generateResponseSteps].  An action
    that names an inherited member makes [phase] that member, under
    which no timeline has an entry. *)
Definition stepOfAction (timeline : value) (indexed : nat * string)
  : result Step :=
  let '(index, action) := indexed in
  match getProperty phaseMap action with
  | Inherited =>
      Throw (TypeError "Cannot read properties of undefined (reading 'estimatedDuration')")
  | found =>
      let phase := match found with Own p => p | _ => CONTAINMENT end in
      let team := match getProperty teamMap action with
                  | Own t => t
                  | _ => RESPONSE_TEAMS.TIER1
                  end in
      e <- phaseEntryOf timeline phase ;;
      Ok {| step_id := stepId (index + 1);
            step_description := action;
            step_phase := phase;
            assignedTeam := team;
            step_status := PENDING;
            step_estimatedDuration :=
              JsNumber.Math_round (estimatedDuration e / 3)%float;
            step_startTime := None;
            step_endTime := None |}
  end.

(** [xs.map((x, i) => [i, x])]. *)
Definition indexed {A : Type} (xs : list A) : list (nat * A) :=
  combine (seq 0 (List.length xs)) xs.

(** [generateResponseSteps(recommendedActions, timeline)].  Only an
    array has [forEach]. *)
Definition generateResponseSteps (recommendedActions timeline : value)
  : result (list Step) :=
  match recommendedActions with
  | VArray actions =>
      steps <- mapM (stepOfAction timeline) (indexed actions) ;;
      e <- phaseEntryOf timeline LESSONS_LEARNED ;;
      Ok (steps ++
          [{| step_id := stepId (List.length actions + 1);
              step_description := "Document incident and update response procedures";
              step_phase := LESSONS_LEARNED;
              assignedTeam := RESPONSE_TEAMS.MANAGEMENT;
              step_status := PENDING;
              step_estimatedDuration := estimatedDuration e;
              step_startTime := None;
              step_endTime := None |}])%list
  | VUndefined =>
      Throw (TypeError "Cannot read properties of undefined (reading 'forEach')")
  | VString _ | VAlert _ | VTimeline _ =>
      Throw (TypeError "recommendedActions.forEach is not a function")
  end.

(** A response team; the random identifier, roster and response time
    of [createResponseTeam] are not represented. *)
Record Team := {
  team_name : string;
  specialties : list jsstring
}.

Definition createResponseTeam (name : string) (specialties : list jsstring)
  : Team :=
  {| team_name := name; specialties := specialties |}.

(** The text of a note, by the template that produced it. *)
Inductive NoteContent : Type :=
| ResponseInitiated
| ResponseCompleted
| ProgressAt (progressPercentage : Q) (currentPhase : option Phase)
| PhaseUpdatedTo (newPhase : jsstring)
| Text (s : string).

Record Note := {
  note_timestamp : time;
  author : string;
  content : NoteContent
}.

(** [estimatedCompletionTime] is a number of minutes in one
    constructor and an ISO timestamp in the other. *)
Inductive EstimatedCompletion : Type :=
| Minutes (m : float)
| IsoTime (t : time).

(** The response plan object.  [None] is an absent ([undefined])
    property.  The identifier, the description, [endTime] and [report]
    are read by none of the functions below and are not represented. *)
Record ResponsePlan := {
  incidentId : jsstring;
  incidentType : jsstring;
  threatType : jsstring;
  severity : jsstring;
  affectedSystems : option (list string);
  responseTeam : Team;
  status : Status;
  phase : jsstring;
  currentPhase : option Phase;
  timeline : Timeline;
  responseSteps : option (list Step);
  steps : option (list Step);
  startTime : option time;
  estimatedCompletionTime : EstimatedCompletion;
  actualCompletionTime : option time;
  notes : option (list Note)
}.

(** Assignments to the properties of a plan. *)
Definition set_status (v : Status) (p : ResponsePlan) : ResponsePlan :=
  {| incidentId := incidentId p; incidentType := incidentType p;
     threatType := threatType p; severity := severity p;
     affectedSystems := affectedSystems p; responseTeam := responseTeam p;
     status := v; phase := phase p; currentPhase := currentPhase p;
     timeline := timeline p; responseSteps := responseSteps p;
     steps := steps p; startTime := startTime p;
     estimatedCompletionTime := estimatedCompletionTime p;
     actualCompletionTime := actualCompletionTime p; notes := notes p |}.

Definition set_startTime (v : option time) (p : ResponsePlan) : ResponsePlan :=
  {| incidentId := incidentId p; incidentType := incidentType p;
     threatType := threatType p; severity := severity p;
     affectedSystems := affectedSystems p; responseTeam := responseTeam p;
     status := status p; phase := phase p; currentPhase := currentPhase p;
     timeline := timeline p; responseSteps := responseSteps p;
     steps := steps p; startTime := v;
     estimatedCompletionTime := estimatedCompletionTime p;
     actualCompletionTime := actualCompletionTime p; notes := notes p |}.

Definition set_phase (v : jsstring) (p : ResponsePlan) : ResponsePlan :=
  {| incidentId := incidentId p; incidentType := incidentType p;
     threatType := threatType p; severity := severity p;
     affectedSystems := affectedSystems p; responseTeam := responseTeam p;
     status := status p; phase := v; currentPhase := currentPhase p;
     timeline := timeline p; responseSteps := responseSteps p;
     steps := steps p; startTime := startTime p;
     estimatedCompletionTime := estimatedCompletionTime p;
     actualCompletionTime := actualCompletionTime p; notes := notes p |}.

Definition set_currentPhase (v : option Phase) (p : ResponsePlan) : ResponsePlan :=
  {| incidentId := incidentId p; incidentType := incidentType p;
     threatType := threatType p; severity := severity p;
     affectedSystems := affectedSystems p; responseTeam := responseTeam p;
     status := status p; phase := phase p; currentPhase := v;
     timeline := timeline p; responseSteps := responseSteps p;
     steps := steps p; startTime := startTime p;
     estimatedCompletionTime := estimatedCompletionTime p;
     actualCompletionTime := actualCompletionTime p; notes := notes p |}.

Definition set_timeline (v : Timeline) (p : ResponsePlan) : ResponsePlan :=
  {| incidentId := incidentId p; incidentType := incidentType p;
     threatType := threatType p; severity := severity p;
     affectedSystems := affectedSystems p; responseTeam := responseTeam p;
     status := status p; phase := phase p; currentPhase := currentPhase p;
     timeline := v; responseSteps := responseSteps p;
     steps := steps p; startTime := startTime p;
     estimatedCompletionTime := estimatedCompletionTime p;
     actualCompletionTime := actualCompletionTime p; notes := notes p |}.

Definition set_responseSteps (v : list Step) (p : ResponsePlan) : ResponsePlan :=
  {| incidentId := incidentId p; incidentType := incidentType p;
     threatType := threatType p; severity := severity p;
     affectedSystems := affectedSystems p; responseTeam := responseTeam p;
     status := status p; phase := phase p; currentPhase := currentPhase p;
     timeline := timeline p; responseSteps := Some v;
     steps := steps p; startTime := startTime p;
     estimatedCompletionTime := estimatedCompletionTime p;
     actualCompletionTime := actualCompletionTime p; notes := notes p |}.

Definition set_actualCompletionTime (v : option time) (p : ResponsePlan)
  : ResponsePlan :=
  {| incidentId := incidentId p; incidentType := incidentType p;
     threatType := threatType p; severity := severity p;
     affectedSystems := affectedSystems p; responseTeam := responseTeam p;
     status := status p; phase := phase p; currentPhase := currentPhase p;
     timeline := timeline p; responseSteps := responseSteps p;
     steps := steps p; startTime := startTime p;
     estimatedCompletionTime := estimatedCompletionTime p;
     actualCompletionTime := v; notes := notes p |}.

Definition set_notes (v : list Note) (p : ResponsePlan) : ResponsePlan :=
  {| incidentId := incidentId p; incidentType := incidentType p;
     threatType := threatType p; severity := severity p;
     affectedSystems := affectedSystems p; responseTeam := responseTeam p;
     status := status p; phase := phase p; currentPhase := currentPhase p;
     timeline := timeline p; responseSteps := responseSteps p;
     steps := steps p; startTime := startTime p;
     estimatedCompletionTime := estimatedCompletionTime p;
     actualCompletionTime := actualCompletionTime p; notes := Some v |}.

(** [plan.responseSteps.forEach(f)]: throws when the plan has no such
    property. *)
Definition forEachStep (f : Step -> Step) (p : ResponsePlan)
  : result ResponsePlan :=
  match responseSteps p with
  | Some ss => Ok (set_responseSteps (map f ss) p)
  | None => Throw (TypeError "Cannot read properties of undefined (reading 'forEach')")
  end.

(** [plan.notes.push(note)]. *)
Definition pushNote (n : Note) (p : ResponsePlan) : result ResponsePlan :=
  match notes p with
  | Some ns => Ok (set_notes (ns ++ [n]) p)
  | None => Throw (TypeError "Cannot read properties of undefined (reading 'push')")
  end.

Definition systemNote (now : time) (c : NoteContent) : Note :=
  {| note_timestamp := now; author := "System"; content := c |}.



(** [createResponsePlan(threatAlert)].  It calls
    [createResponseTimeline()] without arguments and
    [generateResponseSteps(threatAlert)] with the alert as the list of
    actions and no timeline; the object it builds has [steps], and
    neither [responseSteps] nor [notes]. *)
Definition createResponsePlan (threatAlert : ThreatAlert) (now : time)
  : result ResponsePlan :=
  let team :=
    createResponseTeam
      (if a_type threatAlert === "network" then "Network Security"
       else if a_type threatAlert === "device" then "Endpoint Protection"
       else if a_type threatAlert === "data" then "Data Security"
       else if a_type threatAlert === "infrastructure" then "Infrastructure"
       else "IoT Security")
      [a_type threatAlert] in
  let tl := createResponseTimeline None None in
  ss <- generateResponseSteps (VAlert threatAlert) VUndefined ;;
  Ok {| incidentId := a_id threatAlert;
        incidentType := a_type threatAlert;
        threatType := None;
        severity := a_severity threatAlert;
        affectedSystems := Some (match a_affectedSystems threatAlert with
                                 | Some l => l
                                 | None => []
                                 end);
        responseTeam := team;
        status := IN_PROGRESS;
        phase := Some (phaseName IDENTIFICATION);
        currentPhase := None;
        timeline := tl;
        responseSteps := None;
        steps := Some ss;
        startTime := Some now;
        estimatedCompletionTime := IsoTime (now + 3600000);
        actualCompletionTime := None;
        notes := None |}.

Definition set_phase_status (v : Status) (e : PhaseEntry) : PhaseEntry :=
  {| estimatedDuration := estimatedDuration e;
     phase_startTime := phase_startTime e;
     phase_endTime := phase_endTime e;
     phase_status := v |}.

Definition set_phase_startTime (v : time) (e : PhaseEntry) : PhaseEntry :=
  {| estimatedDuration := estimatedDuration e;
     phase_startTime := Some v;
     phase_endTime := phase_endTime e;
     phase_status := phase_status e |}.

Definition set_phase_endTime (v : time) (e : PhaseEntry) : PhaseEntry :=
  {| estimatedDuration := estimatedDuration e;
     phase_startTime := phase_startTime e;
     phase_endTime := Some v;
     phase_status := phase_status e |}.

Definition set_step_status (v : Status) (s : Step) : Step :=
  {| step_id := step_id s; step_description := step_description s;
     step_phase := step_phase s; assignedTeam := assignedTeam s;
     step_status := v; step_estimatedDuration := step_estimatedDuration s;
     step_startTime := step_startTime s; step_endTime := step_endTime s |}.

Definition set_step_startTime (v : time) (s : Step) : Step :=
  {| step_id := step_id s; step_description := step_description s;
     step_phase := step_phase s; assignedTeam := assignedTeam s;
     step_status := step_status s;
     step_estimatedDuration := step_estimatedDuration s;
     step_startTime := Some v; step_endTime := step_endTime s |}.

Definition set_step_endTime (v : time) (s : Step) : Step :=
  {| step_id := step_id s; step_description := step_description s;
     step_phase := step_phase s; assignedTeam := assignedTeam s;
     step_status := step_status s;
     step_estimatedDuration := step_estimatedDuration s;
     step_startTime := step_startTime s; step_endTime := Some v |}.

(** [startResponse(responsePlan)]. *)
Definition startResponse (responsePlan : ResponsePlan) (now : time)
  : result ResponsePlan :=
  let updatedPlan := set_status IN_PROGRESS responsePlan in
  let updatedPlan := set_startTime (Some now) updatedPlan in
  let e := entry (timeline updatedPlan) IDENTIFICATION in
  let e := set_phase_status IN_PROGRESS e in
  let e := set_phase_startTime now e in
  let updatedPlan :=
    set_timeline (setEntry (timeline updatedPlan) IDENTIFICATION e) updatedPlan in
  updatedPlan <-
    forEachStep
      (fun step =>
         if Phase_eqb (step_phase step) IDENTIFICATION
         then set_step_startTime now (set_step_status IN_PROGRESS step)
         else step)
      updatedPlan ;;
  pushNote (systemNote now ResponseInitiated) updatedPlan.

(** [if (!x.startTime) x.startTime = now]. *)
Definition stampPhaseStart (now : time) (e : PhaseEntry) : PhaseEntry :=
  match phase_startTime e with
  | Some _ => e
  | None => set_phase_startTime now e
  end.

Definition stampPhaseEnd (now : time) (e : PhaseEntry) : PhaseEntry :=
  match phase_endTime e with
  | Some _ => e
  | None => set_phase_endTime now e
  end.

Definition stampStepStart (now : time) (s : Step) : Step :=
  match step_startTime s with
  | Some _ => s
  | None => set_step_startTime now s
  end.

Definition stampStepEnd (now : time) (s : Step) : Step :=
  match step_endTime s with
  | Some _ => s
  | None => set_step_endTime now s
  end.

(** [Math.floor((progressPercentage / 100) * phases.length)], clamped to
    the last index. *)
Definition currentPhaseIndexOf (progressPercentage : Q) : Z :=
  let i := Qfloor (progressPercentage / 100 * 5) in
  if i >=? 5 then 5 - 1 else i.

(** [progressPercentage < 100] and [progressPercentage >= 100]. *)
Definition below100 (progressPercentage : Q) : bool :=
  negb (Qle_bool 100 progressPercentage).

(** One iteration of the loop over the phases up to the current one. *)
Definition progressPhase (now : time) (progressPercentage : Q)
    (currentPhaseIndex : Z) (tl : Timeline) (ph : Phase) : Timeline :=
  let e := entry tl ph in
  if (phaseIndex ph =? currentPhaseIndex) && below100 progressPercentage then
    setEntry tl ph (stampPhaseStart now (set_phase_status IN_PROGRESS e))
  else
    setEntry tl ph
      (stampPhaseEnd now (stampPhaseStart now (set_phase_status COMPLETED e))).

(** The body of the [forEach] over the steps. *)
Definition progressStep (now : time) (progressPercentage : Q)
    (currentPhaseIndex : Z) (step : Step) : Step :=
  let stepPhaseIndex := phaseIndex (step_phase step) in
  if stepPhaseIndex <? currentPhaseIndex then
    stampStepEnd now (stampStepStart now (set_step_status COMPLETED step))
  else if stepPhaseIndex =? currentPhaseIndex then
    if Qeq_bool progressPercentage 100 then
      stampStepEnd now (stampStepStart now (set_step_status COMPLETED step))
    else
      stampStepStart now (set_step_status IN_PROGRESS step)
  else step.

(** [simulateResponseProgress(responsePlan, progressPercentage)]. *)
Definition simulateResponseProgress (responsePlan : ResponsePlan)
    (progressPercentage : Q) (now : time) : result ResponsePlan :=
  match startTime responsePlan, Status_eqb (status responsePlan) COMPLETED with
  | None, _ | _, true => Ok responsePlan
  | Some _, false =>
      let currentPhaseIndex := currentPhaseIndexOf progressPercentage in
      let current :=
        if currentPhaseIndex <? 0 then None
        else nth_error phases (Z.to_nat currentPhaseIndex) in
      let updatedPlan := set_currentPhase current responsePlan in
      let updatedPlan :=
        set_timeline
          (fold_left (progressPhase now progressPercentage currentPhaseIndex)
                     (firstn (Z.to_nat (currentPhaseIndex + 1)) phases)
                     (timeline updatedPlan))
          updatedPlan in
      updatedPlan <-
        forEachStep (progressStep now progressPercentage currentPhaseIndex)
                    updatedPlan ;;
      if Qle_bool 100 progressPercentage then
        let updatedPlan := set_status COMPLETED updatedPlan in
        let updatedPlan := set_actualCompletionTime (Some now) updatedPlan in
        pushNote (systemNote now ResponseCompleted) updatedPlan
      else
        pushNote (systemNote now (ProgressAt progressPercentage current))
                 updatedPlan
  end.

(** [updateResponsePhase(response, newPhase, notes)]; [extra] is the
    optional [notes] argument, falsy when absent or empty. *)
Definition updateResponsePhase (response : ResponsePlan) (newPhase : jsstring)
    (extra : option string) (now : time) : result ResponsePlan :=
  let updatedResponse := set_phase newPhase response in
  let updatedResponse :=
    if newPhase === phaseName LESSONS_LEARNED
    then set_status COMPLETED updatedResponse
    else updatedResponse in
  updatedResponse <-
    pushNote (systemNote now (PhaseUpdatedTo newPhase)) updatedResponse ;;
  match extra with
  | Some s =>
      if String.eqb s "" then Ok updatedResponse
      else pushNote {| note_timestamp := now; author := "Responder";
                       content := Text s |} updatedResponse
  | None => Ok updatedResponse
  end.

(** [Math.round] on an exact quotient. *)
Definition Math_roundQ (q : Q) : Z := Qfloor (q + (1 # 2)).

(** [Math.round((end - start) / (1000 * 60))] for two dates. *)
Definition minutesBetween (start finish : time) : Z :=
  Math_roundQ (inject_Z (finish - start) / inject_Z (1000 * 60)).

(** The same for two optional properties: [new Date(undefined)] is an
    invalid date and the result NaN ([None]). *)
Definition responseTimeMinutes (start finish : option time) : option Z :=
  match start, finish with
  | Some s, Some f => Some (minutesBetween s f)
  | _, _ => None
  end.

Definition isCompleted (s : Step) : bool := Status_eqb (step_status s) COMPLETED.

(** [plan.responseSteps.filter(...)]: throws when the property is
    absent. *)
Definition stepsOf (p : ResponsePlan) : result (list Step) :=
  match responseSteps p with
  | Some ss => Ok ss
  | None => Throw (TypeError "Cannot read properties of undefined (reading 'filter')")
  end.

Definition calculateCompletionPercentage (responsePlan : ResponsePlan)
  : result float :=
  match status responsePlan with
  | COMPLETED => Ok 100%float
  | PENDING => Ok 0%float
  | _ =>
      ss <- stepsOf responsePlan ;;
      let completedSteps := List.length (filter isCompleted ss) in
      Ok (JsNumber.Math_round
            (JsNumber.of_Z (Z.of_nat completedSteps)
             / JsNumber.of_Z (Z.of_nat (List.length ss)) * 100)%float)
  end.

(** [total > estimate] and [total <= estimate]; a NaN total, or an
    estimate that is a timestamp string, compares false. *)
Definition exceeds (total : option Z) (estimate : EstimatedCompletion) : bool :=
  match total, estimate with
  | Some t, Minutes m => PrimFloat.ltb m (JsNumber.of_Z t)
  | _, _ => false
  end.

Definition within (total : option Z) (estimate : EstimatedCompletion) : bool :=
  match total, estimate with
  | Some t, Minutes m => PrimFloat.leb (JsNumber.of_Z t) m
  | _, _ => false
  end.

(** [estimate - total]. *)
Definition variance (total : option Z) (estimate : EstimatedCompletion) : float :=
  match total, estimate with
  | Some t, Minutes m => (m - JsNumber.of_Z t)%float
  | _, _ => PrimFloat.nan
  end.

Definition generateRecommendations (responsePlan : ResponsePlan) : list string :=
  (match actualCompletionTime responsePlan with
   | Some _ =>
       if exceeds (responseTimeMinutes (startTime responsePlan)
                                       (actualCompletionTime responsePlan))
                  (estimatedCompletionTime responsePlan)
       then ["Response took longer than estimated. Consider reviewing team allocation and procedures."]
       else []
   | None => []
   end)
  ++ (let t := threatType responsePlan in
      if t === THREAT_TYPES.UNAUTHORIZED_ACCESS then
        ["Implement stronger authentication mechanisms across similar devices.";
         "Review access control policies and procedures."]
      else if t === THREAT_TYPES.DATA_MANIPULATION then
        ["Implement data integrity verification mechanisms.";
         "Consider blockchain or cryptographic solutions for critical data."]
      else if t === THREAT_TYPES.FIRMWARE_TAMPERING then
        ["Implement secure boot and firmware signature verification.";
         "Establish regular firmware update and verification schedule."]
      else if (t === THREAT_TYPES.MALWARE) || (t === THREAT_TYPES.RANSOMWARE) then
        ["Enhance endpoint protection on all connected devices.";
         "Implement network segmentation to limit lateral movement."]
      else ["Review security posture of similar devices in the network."])
  ++ ["Conduct training exercises for similar scenarios.";
      "Update incident response playbooks based on lessons learned."].

(** The full report.  [deviceId], [deviceName] and [teamsInvolved]
    copy properties no constructor sets and are not represented. *)
Record FullReport := {
  r_incidentId : jsstring;
  r_threatType : jsstring;
  r_severity : jsstring;
  r_startTime : option time;
  completionTime : option time;
  totalResponseTimeMinutes : option Z;
  estimatedTimeMinutes : EstimatedCompletion;
  withinEstimatedTime : bool;
  timeVariance : float;
  phaseDurations : list (string * Z);
  stepsCompleted : nat;
  totalSteps : nat;
  r_notes : option (list Note);
  recommendations : list string
}.

Inductive Report : Type :=
| Incomplete (incidentId : jsstring) (message : string)
             (completionPercentage : float)
| Completed (r : FullReport).


Definition report_incidentId (r : Report) : jsstring :=
  match r with
  | Incomplete i _ _ => i
  | Completed f => r_incidentId f
  end.

Definition phaseDuration (e : PhaseEntry) : Z :=
  match phase_startTime e, phase_endTime e with
  | Some s, Some f => minutesBetween s f
  | _, _ => 0
  end.

(** [generateResponseReport(responsePlan)]. *)
Definition generateResponseReport (responsePlan : ResponsePlan) : result Report :=
  if negb (Status_eqb (status responsePlan) COMPLETED) then
    pct <- calculateCompletionPercentage responsePlan ;;
    Ok (Incomplete (incidentId responsePlan)
                   "Cannot generate report for incomplete response" pct)
  else
    let total := responseTimeMinutes (startTime responsePlan)
                                     (actualCompletionTime responsePlan) in
    let durations :=
      map (fun ph => (phaseName ph, phaseDuration (entry (timeline responsePlan) ph)))
          phases in
    ss <- stepsOf responsePlan ;;
    Ok (Completed
          {| r_incidentId := incidentId responsePlan;
             r_threatType := threatType responsePlan;
             r_severity := severity responsePlan;
             r_startTime := startTime responsePlan;
             completionTime := actualCompletionTime responsePlan;
             totalResponseTimeMinutes := total;
             estimatedTimeMinutes := estimatedCompletionTime responsePlan;
             withinEstimatedTime := within total (estimatedCompletionTime responsePlan);
             timeVariance := variance total (estimatedCompletionTime responsePlan);
             phaseDurations := durations;
             stepsCompleted := List.length (filter isCompleted ss);
             totalSteps := List.length ss;
             r_notes := notes responsePlan;
             recommendations := generateRecommendations responsePlan |}).

(** [createResponsePlan], [startResponse],
    [simulateResponseProgress(plan, 100)] and [generateResponseReport]
    in sequence, each call with its own clock reading. *)
Definition responsePipeline (threatAlert : ThreatAlert) (t0 t1 t2 : time)
  : result Report :=
  plan <- createResponsePlan threatAlert t0 ;;
  plan <- startResponse plan t1 ;;
  plan <- simulateResponseProgress plan 100 t2 ;;
  generateResponseReport plan.

End IncidentResponse.

Import ThreatDetection IncidentResponse.

(** ** Definitions used to state the properties *)

(** The four defined severities. *)
Definition definedSeverities : list string :=
  [SEVERITY.LOW; SEVERITY.MEDIUM; SEVERITY.HIGH; SEVERITY.CRITICAL].

(** The duration table as the specification words it: base minutes,
    threat-type multiplier, severity multiplier, rounding. *)
Module TimelineSpec.

Definition baseMinutes (ph : Phase) : float :=
  match ph with
  | IDENTIFICATION => 15
  | CONTAINMENT => 30
  | ERADICATION => 45
  | RECOVERY => 30
  | LESSONS_LEARNED => 60
  end.

Definition typeMultiplier (threatType : jsstring) (ph : Phase) : float :=
  if (threatType === "Ransomware") || (threatType === "Malware Infection") then
    match ph with ERADICATION | RECOVERY => 1.5 | _ => 1 end
  else if threatType === "Firmware Tampering" then
    match ph with ERADICATION => 1.3 | RECOVERY => 1.2 | _ => 1 end
  else if threatType === "Data Manipulation" then
    match ph with IDENTIFICATION => 1.2 | ERADICATION => 1.1 | _ => 1 end
  else 1.

Definition severityScale (severity : string) : float :=
  if String.eqb severity "low" then 0.7
  else if String.eqb severity "medium" then 1.0
  else if String.eqb severity "high" then 1.5
  else 2.0.

Definition duration (threatType : jsstring) (severity : string) (ph : Phase)
  : float :=
  JsNumber.Math_round
    (baseMinutes ph * typeMultiplier threatType ph * severityScale severity)%float.

End TimelineSpec.

(** The five estimated durations of a timeline. *)
Definition durations (tl : Timeline) : list float :=
  map estimatedDuration (values tl).

(** The estimate of a plan equals the sum of its five durations: the
    estimate is a number, and it is [===] to the sum. *)
Definition estimateIsSum (p : ResponsePlan) : bool :=
  match estimatedCompletionTime p with
  | Minutes m =>
      PrimFloat.eqb m
        (fold_left PrimFloat.add (durations (timeline p)) 0%float)
  | IsoTime _ => false
  end.

(** The state-machine operations on a plan. *)
Inductive Operation : Type :=
| OpStartResponse
| OpSimulateProgress (progressPercentage : Q)
| OpUpdatePhase (newPhase : jsstring) (extra : option string).

Definition apply (op : Operation) (plan : ResponsePlan) (now : time)
  : result ResponsePlan :=
  match op with
  | OpStartResponse => startResponse plan now
  | OpSimulateProgress p => simulateResponseProgress plan p now
  | OpUpdatePhase newPhase extra => updateResponsePhase plan newPhase extra now
  end.

(** A sequence of operations, each with the clock reading of its call. *)
Fixpoint run (plan : ResponsePlan) (ops : list (Operation * time))
  : result ResponsePlan :=
  match ops with
  | [] => Ok plan
  | (op, now) :: rest => plan' <- apply op plan now ;; run plan' rest
  end.

Definition isStart (op : Operation) : bool :=
  match op with
  | OpStartResponse => true
  | _ => false
  end.





(** A plan as its constructor documents it: the timeline of
    [createResponseTimeline], the steps of [generateResponseSteps] on the
    alert's recommended actions, an empty list of notes. *)
Definition assemblePlan (alert : ThreatAlert) (now : time) : result ResponsePlan :=
  let tl := createResponseTimeline (a_threatType alert) (a_severity alert) in
  ss <- generateResponseSteps (VArray (a_recommendedActions alert)) (VTimeline tl) ;;
  Ok {| incidentId := a_id alert;
        incidentType := a_threatType alert;
        threatType := a_threatType alert;
        severity := a_severity alert;
        affectedSystems := a_affectedSystems alert;
        responseTeam := createResponseTeam "IoT Security" [];
        status := PENDING;
        phase := Some (phaseName IDENTIFICATION);
        currentPhase := None;
        timeline := tl;
        responseSteps := Some ss;
        steps := None;
        startTime := None;
        estimatedCompletionTime := Minutes (calculateEstimatedCompletionTime tl);
        actualCompletionTime := None;
        notes := Some [] |}.

(** Sample inputs. *)
Definition sampleCamera : Device :=
  {| device_id := Some "cam-1"; device_name := Some "Camera 1";
     device_type := Some "camera" |}.

Definition sampleAlert : ThreatAlert :=
  generateThreatAlert sampleCamera
    {| td_threatType := Some THREAT_TYPES.UNAUTHORIZED_ACCESS;
       td_severity := Some SEVERITY.HIGH;
       td_confidence := Some (8 # 10) |}
    1700000000000 (1 # 2).

Definition samplePlan : ResponsePlan :=
  match assemblePlan sampleAlert 1700000000000 with
  | Ok p => p
  | Throw _ =>
      {| incidentId := None; incidentType := None; threatType := None;
         severity := None; affectedSystems := None;
         responseTeam := createResponseTeam "" [];
         status := FAILED; phase := None; currentPhase := None;
         timeline := createResponseTimeline None None;
         responseSteps := None; steps := None; startTime := None;
         estimatedCompletionTime := IsoTime 0;
         actualCompletionTime := None; notes := None |}
  end.

(** What the loop of [simulateResponseProgress] does to the entry of one
    phase. *)
Definition progressedEntry (now : time) (progressPercentage : Q)
    (currentPhaseIndex : Z) (ph : Phase) (e : PhaseEntry) : PhaseEntry :=
  if phaseIndex ph <=? currentPhaseIndex then
    if (phaseIndex ph =? currentPhaseIndex) && below100 progressPercentage then
      stampPhaseStart now (set_phase_status IN_PROGRESS e)
    else
      stampPhaseEnd now (stampPhaseStart now (set_phase_status COMPLETED e))
  else e.



(** The sample plan after [startResponse] at 1000 and
    [simulateResponseProgress(plan, 50)] at 2000, and the operations run
    on it afterwards. *)
Definition orElse (r : result ResponsePlan) (d : ResponsePlan) : ResponsePlan :=
  match r with
  | Ok p => p
  | Throw _ => d
  end.

Definition startedPlan : ResponsePlan :=
  orElse (run samplePlan [(OpStartResponse, 1000); (OpSimulateProgress 50, 2000)])
         samplePlan.

Definition laterOperations : list (Operation * time) :=
  [(OpUpdatePhase (Some "recovery") (Some "escalated"), 3000);
   (OpStartResponse, 3500);
   (OpSimulateProgress 100, 4000)].

Definition finishedPlan : ResponsePlan :=
  orElse (run startedPlan laterOperations) samplePlan.


Definition sampleStarted : ResponsePlan :=
  orElse (startResponse samplePlan 1000) samplePlan.


(** ** Further functions of incidentResponse.js and threatDetection.js *)

(** [determineResponseTeams(threatType, severity)]. *)
Definition determineResponseTeams (threatType severity : jsstring) : list string :=
  [RESPONSE_TEAMS.TIER1]
  ++ (if (severity === SEVERITY.MEDIUM) || (severity === SEVERITY.HIGH)
         || (severity === SEVERITY.CRITICAL)
      then [RESPONSE_TEAMS.TIER2] else [])
  ++ (if (severity === SEVERITY.HIGH) || (severity === SEVERITY.CRITICAL)
      then [RESPONSE_TEAMS.TIER3] else [])
  ++ (if (threatType === THREAT_TYPES.UNAUTHORIZED_ACCESS)
         || (threatType === THREAT_TYPES.DATA_MANIPULATION)
         || (threatType === THREAT_TYPES.MALWARE)
         || (threatType === THREAT_TYPES.RANSOMWARE)
      then [RESPONSE_TEAMS.FORENSICS] else [])
  ++ (if threatType === THREAT_TYPES.PHYSICAL_TAMPERING
      then [RESPONSE_TEAMS.PHYSICAL] else [])
  ++ (if severity === SEVERITY.CRITICAL
      then [RESPONSE_TEAMS.MANAGEMENT] else []).

(** [addResponseNote(responsePlan, author, content)]. *)
Definition addResponseNote (responsePlan : ResponsePlan) (author content : string)
    (now : time) : result ResponsePlan :=
  pushNote {| note_timestamp := now; author := author; content := Text content |}
           responsePlan.

(** [simulateIncidentResponse(threatAlert, progressPercentage)]: the
    plan, the report ([None] is [null]) and the completion percentage. *)
Definition simulateIncidentResponse (threatAlert : ThreatAlert)
    (progressPercentage : Q) (t0 t1 t2 : time)
  : result (ResponsePlan * option Report * float) :=
  responsePlan <- createResponsePlan threatAlert t0 ;;
  responsePlan <- startResponse responsePlan t1 ;;
  responsePlan <- simulateResponseProgress responsePlan progressPercentage t2 ;;
  report <- (if Qle_bool 100 progressPercentage
             then r <- generateResponseReport responsePlan ;; Ok (Some r)
             else Ok None) ;;
  pct <- calculateCompletionPercentage responsePlan ;;
  Ok (responsePlan, report, pct).

(** The state-machine operations together with [addResponseNote]. *)
Inductive Mutation : Type :=
| Operate (op : Operation)
| AddNote (author content : string).

Definition mutate (m : Mutation) (plan : ResponsePlan) (now : time)
  : result ResponsePlan :=
  match m with
  | Operate op => apply op plan now
  | AddNote author content => addResponseNote plan author content now
  end.

Fixpoint mutateAll (plan : ResponsePlan) (ms : list (Mutation * time))
  : result ResponsePlan :=
  match ms with
  | [] => Ok plan
  | (m, now) :: rest => plan' <- mutate m plan now ;; mutateAll plan' rest
  end.

(** The result of [deployCountermeasures]. *)
Record CountermeasureResult := {
  cr_deviceId : jsstring;
  cr_threatId : jsstring;
  cr_timestamp : time;
  isSuccessful : bool;
  responseTimeMs : Z;
  actionsTaken : list string;
  newDeviceStatus : string;
  newThreatStatus : string;
  cr_notes : string
}.

(** The success probability of [deployCountermeasures]. *)
Definition successProbability (threat : ThreatAlert) : Q :=
  let p := (9 # 10)%Q in
  let p := if a_severity threat === SEVERITY.CRITICAL then (p - (3 # 10))%Q
           else if a_severity threat === SEVERITY.HIGH then (p - (2 # 10))%Q
           else if a_severity threat === SEVERITY.MEDIUM then (p - (1 # 10))%Q
           else p in
  if a_threatType threat === THREAT_TYPES.FIRMWARE_TAMPERING then (p - (15 # 100))%Q
  else if a_threatType threat === THREAT_TYPES.RANSOMWARE then (p - (25 # 100))%Q
  else p.

(** [deployCountermeasures(device, threat)], with the three draws of
    [Math.random()] in the order of the calls. *)
Definition deployCountermeasures (device : Device) (threat : ThreatAlert)
    (now : time) (r1 r2 r3 : Q) : CountermeasureResult :=
  let ok := negb (Qle_bool (successProbability threat) r1) in
  {| cr_deviceId := device_id device;
     cr_threatId := a_id threat;
     cr_timestamp := now;
     isSuccessful := ok;
     responseTimeMs := Qfloor (r2 * inject_Z (120000 - 10000) + 10000);
     actionsTaken :=
       firstn (Z.to_nat (Qfloor (r3 * 3) + 2)) (a_recommendedActions threat);
     newDeviceStatus := if ok then "safe" else "compromised";
     newThreatStatus := if ok then "resolved" else "mitigating";
     cr_notes :=
       if ok
       then "Threat successfully mitigated. Device returned to normal operation."
       else "Initial countermeasures insufficient. Escalating response and continuing mitigation efforts." |}.

(** No string twice in a list. *)
Fixpoint distinct (xs : list string) : bool :=
  match xs with
  | [] => true
  | x :: rest => negb (includes rest x) && distinct rest
  end.

(** An action that both tables of [generateResponseSteps] list. *)
Definition mapped (action : string) : bool :=
  match getProperty phaseMap action, getProperty teamMap action with
  | Own _, Own _ => negb (includes objectPrototypeKeys action)
  | _, _ => false
  end.

(** The two actions every alert starts with. *)
Definition baselineActions : list string :=
  ["Isolate affected device from network";
   "Capture current device state for forensic analysis"].

(** The severity [simulateAIDetection] arrives at, by device type and
    anomaly score. *)
Definition detectedSeverity (device : Device) (score : Q) : string :=
  if device_type device === "camera" then "high"
  else if device_type device === "trafficLight" then
    if Qgtb score (8 # 10) then "critical" else "medium"
  else if device_type device === "waterSensor" then "medium"
  else if Qgtb score (9 # 10) then "high" else "medium".

(** The actions an alert of [simulateAIDetection] can list. *)
Definition detectionActions : list string :=
  baselineActions
  ++ ["Notify city emergency response coordinator";
      "Prepare public communication if services are affected";
      "Switch to manual traffic control if necessary"].

(** A status agrees with the time stamps beside it: completed comes
    with a start and an end time, in progress with a start time. *)
Definition stampsFit (st : Status) (start finish : option time) : Prop :=
  match st with
  | COMPLETED => start <> None /\ finish <> None
  | IN_PROGRESS => start <> None
  | _ => True
  end.

Definition stamped (p : ResponsePlan) : Prop :=
  (forall ph,
      let e := entry (timeline p) ph in
      stampsFit (phase_status e) (phase_startTime e) (phase_endTime e))
  /\ (forall ss s,
         responseSteps p = Some ss -> In s ss ->
         stampsFit (step_status s) (step_startTime s) (step_endTime s)).

(** ** Response teams with their roster *)

Module Roster.

(** [Math.random()] as a sequence of draws: a function reads the draw at
    its position and passes the next position on. *)
Definition draws := nat -> Q.

(** [xs[Math.floor(r * xs.length)]]; [None] is [undefined]. *)
Definition pick (xs : list string) (r : Q) : option string :=
  let i := Qfloor (r * inject_Z (Z.of_nat (List.length xs))) in
  if i <? 0 then None else nth_error xs (Z.to_nat i).

Definition firstNames : list string :=
  ["Alex"; "Jordan"; "Taylor"; "Morgan"; "Casey"; "Riley"; "Avery"; "Quinn";
   "Skyler"; "Dakota"].

Definition lastNames : list string :=
  ["Smith"; "Johnson"; "Williams"; "Brown"; "Jones"; "Garcia"; "Miller";
   "Davis"; "Rodriguez"; "Martinez"].

Definition roles : list string :=
  ["Analyst"; "Engineer"; "Specialist"; "Technician"; "Coordinator"; "Lead"].

(** A team member; [name] is the first and the last name with a space
    between, the random identifier is not represented. *)
Record Member := {
  member_firstName : option string;
  member_lastName : option string;
  member_role : option string;
  expertise : Z;
  member_availability : string
}.

(** One iteration of the loop of [generateTeamMembers]: six draws, the
    fourth for the identifier. *)
Definition generateMember (rand : draws) (pos : nat) : Member :=
  {| member_firstName := pick firstNames (rand pos);
     member_lastName := pick lastNames (rand (pos + 1)%nat);
     member_role := pick roles (rand (pos + 2)%nat);
     expertise := Qfloor (rand (pos + 4)%nat * 5) + 1;
     member_availability :=
       if Qgtb (rand (pos + 5)%nat) (2 # 10) then "available" else "busy" |}.

(** [generateTeamMembers(count)], from the draw at [pos] on. *)
Fixpoint generateTeamMembers (count : nat) (rand : draws) (pos : nat)
  : list Member :=
  match count with
  | O => []
  | S count' =>
      generateMember rand pos :: generateTeamMembers count' rand (pos + 6)%nat
  end.

Record Team := {
  name : string;
  specialties : list string;
  members : list Member;
  availability : string;
  currentAssignments : Z;
  responseTime : Z
}.

(** [createResponseTeam(name, specialties)]: one draw for the
    identifier, one for the number of members, six per member and one
    for the response time. *)
Definition createResponseTeam (name : string) (specialties : list string)
    (rand : draws) (pos : nat) : Team :=
  let count := Z.to_nat (3 + Qfloor (rand (pos + 1)%nat * 3)) in
  {| name := name;
     specialties := specialties;
     members := generateTeamMembers count rand (pos + 2)%nat;
     availability := "available";
     currentAssignments := 0;
     responseTime := 5 + Qfloor (rand (pos + 2 + 6 * count)%nat * 10) |}.

Definition memberDefined (m : Member) : Prop :=
  (exists f, member_firstName m = Some f /\ In f firstNames)
  /\ (exists l, member_lastName m = Some l /\ In l lastNames)
  /\ (exists r, member_role m = Some r /\ In r roles)
  /\ 1 <= expertise m <= 5.

End Roster.

(** ** backend/src/utils/blockchainLogger.js *)

Module BlockchainLogger.

(** [ToInt32]: the value of a bitwise operation. *)
Definition toInt32 (x : Z) : Z := (x + 2 ^ 31) mod 2 ^ 32 - 2 ^ 31.

Definition hexDigit (d : Z) : string :=
  String.substring (Z.to_nat d) 1 "0123456789abcdef".

Fixpoint toHex (fuel : nat) (n : Z) (acc : string) : string :=
  match fuel with
  | O => acc
  | S fuel' =>
      let acc' := hexDigit (n mod 16) ++ acc in
      if n / 16 =? 0 then acc' else toHex fuel' (n / 16) acc'
  end.

(** [n.toString(16)] for an integer. *)
Definition toString16 (n : Z) : string :=
  (if n <? 0 then "-" else "")
  ++ toHex (S (Z.to_nat (Z.log2 (Z.abs n)))) (Z.abs n) "".

(** The loop of [generateHash] over the code units of the text. *)
Definition rollingHash (codes : list Z) : Z :=
  fold_left (fun hash char => toInt32 ((toInt32 (hash * 2 ^ 5) - hash) + char))
            codes 0.

Section Ledger.

(** The data of a block, the code units of [JSON.stringify(data)], the
    object [{ ...incident, recordedAt: timestamp }] and the data of the
    genesis block. *)
Context {Data : Type}.
Variable stringify : Data -> list Z.
Variable recorded : Data -> time -> Data.
Variable genesisData : Data.

(** [generateHash(data, previousHash)]. *)
Definition generateHash (data : Data) (previousHash : string) : string :=
  toString16 (rollingHash (stringify data)) ++ String.substring 0 8 previousHash.

Record Block := {
  index : Z;
  timestamp : time;
  data : Data;
  previousHash : string;
  hash : string
}.

(** The ledger after the module is loaded at [now]. *)
Definition genesis (now : time) : list Block :=
  [{| index := 0;
      timestamp := now;
      data := genesisData;
      previousHash := "0000000000000000";
      hash := generateHash genesisData "0000000000000000" |}].

Record Receipt := {
  blockIndex : Z;
  receipt_hash : string;
  receipt_timestamp : time
}.

(** [logIncident(incident)]: the receipt and the ledger after the
    call. *)
Definition logIncident (incident : Data) (now : time) (ledger : list Block)
  : Receipt * list Block :=
  let previous :=
    match List.last (map Some ledger) None with
    | Some b => hash b
    | None => "0000000000000000"
    end in
  let d := recorded incident now in
  let newBlock :=
    {| index := Z.of_nat (List.length ledger);
       timestamp := now;
       data := d;
       previousHash := previous;
       hash := generateHash d previous |} in
  ({| blockIndex := index newBlock;
      receipt_hash := hash newBlock;
      receipt_timestamp := now |},
   (ledger ++ [newBlock])%list).

Inductive Verification : Type :=
| Valid (blockCount : nat)
| ChainBroken (i : Z) (block : Block)
| BlockTampered (i : Z) (block : Block).

(** The loop of [verifyLedger] from block [i] on, [previousBlock] being
    block [i - 1]; [None] when the loop runs to its end. *)
Fixpoint verifyFrom (i : Z) (previousBlock : Block) (rest : list Block)
  : option Verification :=
  match rest with
  | [] => None
  | currentBlock :: rest' =>
      if negb (String.eqb (previousHash currentBlock) (hash previousBlock)) then
        Some (ChainBroken i currentBlock)
      else if negb (String.eqb (generateHash (data currentBlock)
                                             (previousHash currentBlock))
                               (hash currentBlock)) then
        Some (BlockTampered i currentBlock)
      else verifyFrom (i + 1) currentBlock rest'
  end.

(** [verifyLedger()]. *)
Definition verifyLedger (ledger : list Block) : Verification :=
  match ledger with
  | [] => Valid 0
  | first :: rest =>
      match verifyFrom 1 first rest with
      | Some failure => failure
      | None => Valid (List.length ledger)
      end
  end.

(** [getBlock(index)] for an integer index; [None] is [null]. *)
Definition getBlock (i : Z) (ledger : list Block) : option Block :=
  if (0 <=? i) && (i <? Z.of_nat (List.length ledger))
  then nth_error ledger (Z.to_nat i)
  else None.

(** The ledger after a sequence of [logIncident] calls. *)
Fixpoint logAll (incidents : list (Data * time)) (ledger : list Block)
  : list Block :=
  match incidents with
  | [] => ledger
  | (incident, now) :: rest => logAll rest (snd (logIncident incident now ledger))
  end.

(** Block [k] with its data replaced. *)
Definition withData (d : Data) (b : Block) : Block :=
  {| index := index b; timestamp := timestamp b; data := d;
     previousHash := previousHash b; hash := hash b |}.

Fixpoint replaceData (k : nat) (d : Data) (ledger : list Block) : list Block :=
  match ledger, k with
  | [], _ => []
  | b :: rest, O => withData d b :: rest
  | b :: rest, S k' => b :: replaceData k' d rest
  end.

End Ledger.

End BlockchainLogger.

(** * Properties *)

(** ** The timeline *)

(** Abstracts the four comparisons of a threat type that the timeline
    makes, so that the rest computes. *)
Ltac split_threat_type t :=
  unfold THREAT_TYPES.RANSOMWARE, THREAT_TYPES.MALWARE,
    THREAT_TYPES.FIRMWARE_TAMPERING, THREAT_TYPES.DATA_MANIPULATION in *;
  destruct (t === "Ransomware"), (t === "Malware Infection"),
    (t === "Firmware Tampering"), (t === "Data Manipulation").

Lemma severity_cases (s : string) :
  In s definedSeverities ->
  s = "low" \/ s = "medium" \/ s = "high" \/ s = "critical".
Proof.
  unfold definedSeverities, SEVERITY.LOW, SEVERITY.MEDIUM, SEVERITY.HIGH,
    SEVERITY.CRITICAL.
  simpl. intuition auto.
Qed.

(** The durations of a timeline for a type that is none of the four
    special ones, per severity. *)
Example timeline_low_plain :
  map JsNumber.to_Z (durations (createResponseTimeline None (Some "low")))
  = [Some 11; Some 21; Some 31; Some 21; Some 42].
Proof. vm_compute. reflexivity. Qed.

Example timeline_critical_ransomware :
  map JsNumber.to_Z
      (durations (createResponseTimeline (Some "Ransomware") (Some "critical")))
  = [Some 30; Some 60; Some 135; Some 90; Some 120].
Proof. vm_compute. reflexivity. Qed.

Lemma timeline_matches_spec (threatType : jsstring) (severity : string) (ph : Phase) :
  In severity definedSeverities ->
  estimatedDuration (entry (createResponseTimeline threatType (Some severity)) ph)
  = TimelineSpec.duration threatType severity ph.
Proof.
  intros Hs. apply severity_cases in Hs.
  unfold createResponseTimeline, TimelineSpec.duration, TimelineSpec.typeMultiplier.
  destruct Hs as [-> | [-> | [-> | ->]]];
    split_threat_type threatType; destruct ph; vm_compute; reflexivity.
Qed.

Lemma low_total_below_critical_total (threatType : jsstring) :
  PrimFloat.ltb
    (calculateEstimatedCompletionTime
       (createResponseTimeline threatType (Some SEVERITY.LOW)))
    (calculateEstimatedCompletionTime
       (createResponseTimeline threatType (Some SEVERITY.CRITICAL)))
  = true.
Proof.
  unfold createResponseTimeline.
  split_threat_type threatType; vm_compute; reflexivity.
Qed.

(** C5.  For each of the four severities and every threat type, each of
    the five estimated durations of [createResponseTimeline] is the base
    minutes (15, 30, 45, 30, 60) times the threat-type multiplier, times
    the severity multiplier (0.7, 1.0, 1.5, 2.0), rounded, all in
    binary64; and the total for [low] is strictly below the total for
    [critical] with the same threat type. *)
Theorem createResponseTimeline_durations (threatType : jsstring) (severity : string) :
  In severity definedSeverities ->
  (forall ph,
      estimatedDuration (entry (createResponseTimeline threatType (Some severity)) ph)
      = TimelineSpec.duration threatType severity ph)
  /\ PrimFloat.ltb
       (calculateEstimatedCompletionTime
          (createResponseTimeline threatType (Some SEVERITY.LOW)))
       (calculateEstimatedCompletionTime
          (createResponseTimeline threatType (Some SEVERITY.CRITICAL)))
     = true.
Proof.
  intros Hs. split.
  - intros ph. now apply timeline_matches_spec.
  - apply low_total_below_critical_total.
Qed.

Lemma createResponseTimeline_durations_witness :
  In "high" definedSeverities
  /\ (forall ph,
         estimatedDuration
           (entry (createResponseTimeline (Some "Firmware Tampering") (Some "high")) ph)
         = TimelineSpec.duration (Some "Firmware Tampering") "high" ph)
  /\ PrimFloat.ltb
       (calculateEstimatedCompletionTime
          (createResponseTimeline (Some "Firmware Tampering") (Some SEVERITY.LOW)))
       (calculateEstimatedCompletionTime
          (createResponseTimeline (Some "Firmware Tampering") (Some SEVERITY.CRITICAL)))
     = true.
Proof.
  split.
  - vm_compute. auto.
  - apply (createResponseTimeline_durations (Some "Firmware Tampering") "high").
    vm_compute. auto.
Defined.

(** ** The constructors *)

(** An alert object has no [forEach]: handing it to
    [generateResponseSteps] as the list of actions throws, whatever the
    timeline. *)
Lemma generateResponseSteps_alert (alert : ThreatAlert) (tl : value) :
  generateResponseSteps (VAlert alert) tl
  = Throw (TypeError "recommendedActions.forEach is not a function").
Proof. reflexivity. Qed.


(** On an array of actions none of which names an inherited member, with
    a timeline object, [generateResponseSteps] returns one step per
    action and the closing step. *)
Lemma stepOfAction_ok (tl : Timeline) (i : nat) (action : string) :
  includes objectPrototypeKeys action = false ->
  exists s, stepOfAction (VTimeline tl) (i, action) = Ok s
            /\ step_status s = PENDING.
Proof.
  intros H. unfold stepOfAction, getProperty at 1.
  destruct (find _ phaseMap); [| rewrite H]; simpl; eauto.
Qed.

Lemma mapM_stepOfAction_ok (tl : Timeline) (ixs : list (nat * string)) :
  (forall ia, In ia ixs -> includes objectPrototypeKeys (snd ia) = false) ->
  exists ss, mapM (stepOfAction (VTimeline tl)) ixs = Ok ss
             /\ forall s, In s ss -> step_status s = PENDING.
Proof.
  induction ixs as [| [i a] ixs IH]; intros H.
  - exists []. split; [reflexivity | intros s []].
  - destruct (stepOfAction_ok tl i a) as [s [Hs Hp]];
      [apply (H (i, a)); now left |].
    destruct IH as [ss [Hss Hall]]; [intros ia Hia; apply H; now right |].
    exists (s :: ss). cbn [mapM]. rewrite Hs. cbn [bind]. rewrite Hss.
    split; [reflexivity |].
    intros s' [<- | Hin]; auto.
Qed.

Lemma generateResponseSteps_returns (actions : list string) (tl : Timeline) :
  (forall a, In a actions -> includes objectPrototypeKeys a = false) ->
  exists ss,
    generateResponseSteps (VArray actions) (VTimeline tl) = Ok ss
    /\ forall s, In s ss -> step_status s = PENDING.
Proof.
  intros H.
  destruct (mapM_stepOfAction_ok tl (indexed actions)) as [ss [Hss Hall]].
  { intros [i a] Hin. apply H. unfold indexed in Hin.
    now apply in_combine_r in Hin. }
  unfold generateResponseSteps. rewrite Hss. cbn [bind phaseEntryOf].
  eexists. split; [reflexivity |].
  intros s Hin. apply in_app_or in Hin. destruct Hin as [Hin | [<- | []]].
  - now apply Hall.
  - reflexivity.
Qed.

(** C2.  [createResponsePlan] throws a [TypeError] for every alert: it
    never returns a plan. *)
Theorem createResponsePlan_throws (alert : ThreatAlert) (now : time) :
  createResponsePlan alert now
  = Throw (TypeError "recommendedActions.forEach is not a function").
Proof.
  unfold createResponsePlan. rewrite generateResponseSteps_alert. reflexivity.
Qed.

(** C1.  The pipeline [createResponsePlan], [startResponse],
    [simulateResponseProgress(plan, 100)], [generateResponseReport] ends
    in the [TypeError] of its first call for every alert: it yields no
    report. *)
Theorem responsePipeline_throws (alert : ThreatAlert) (t0 t1 t2 : time) :
  responsePipeline alert t0 t1 t2
  = Throw (TypeError "recommendedActions.forEach is not a function")
  /\ forall r, responsePipeline alert t0 t1 t2 <> Ok r.
Proof.
  assert (H : responsePipeline alert t0 t1 t2
              = Throw (TypeError "recommendedActions.forEach is not a function")).
  { unfold responsePipeline, createResponsePlan.
    rewrite generateResponseSteps_alert. reflexivity. }
  split; [exact H | intros r Hr; rewrite H in Hr; discriminate].
Qed.

(** A plan of the shape [createResponsePlan] builds (with [steps] and
    without [responseSteps]) would stop [startResponse] as well. *)
Lemma startResponse_without_responseSteps (plan : ResponsePlan) (now : time) :
  responseSteps plan = None ->
  exists e, startResponse plan now = Throw e.
Proof.
  intros H. unfold startResponse, forEachStep. simpl. rewrite H. simpl. eauto.
Qed.



(** What the construction would give with the documented arguments: the
    estimate of an assembled plan is the sum of its five durations for
    each defined severity. *)
Lemma assembled_estimate_is_sum (alert : ThreatAlert) (now : time)
    (plan : ResponsePlan) (s : string) :
  a_severity alert = Some s ->
  In s definedSeverities ->
  assemblePlan alert now = Ok plan ->
  estimateIsSum plan = true.
Proof.
  intros Hsev Hs. apply severity_cases in Hs.
  unfold assemblePlan. rewrite Hsev.
  destruct (generateResponseSteps _ _); simpl; [| discriminate].
  intros [= <-]. unfold estimateIsSum. simpl.
  unfold createResponseTimeline.
  destruct Hs as [-> | [-> | [-> | ->]]];
    split_threat_type (a_threatType alert); vm_compute; reflexivity.
Qed.

(** ** The state machine *)

Lemma phaseIndex_range (ph : Phase) : 0 <= phaseIndex ph <= 4.
Proof. destruct ph; simpl; lia. Qed.

Lemma index_cases (i : Z) :
  i <= 4 -> i < 0 \/ i = 0 \/ i = 1 \/ i = 2 \/ i = 3 \/ i = 4.
Proof. lia. Qed.

(** The loop over the phases up to the current one, phase by phase. *)
Lemma progress_loop_entry (now : time) (p : Q) (idx : Z) (tl : Timeline)
    (ph : Phase) :
  idx <= 4 ->
  entry (fold_left (progressPhase now p idx)
                   (firstn (Z.to_nat (idx + 1)) phases) tl) ph
  = progressedEntry now p idx ph (entry tl ph).
Proof.
  intros H. unfold progressedEntry.
  destruct (index_cases idx H) as [Hneg | [-> | [-> | [-> | [-> | ->]]]]].
  - replace (Z.to_nat (idx + 1)) with 0%nat by lia. simpl.
    pose proof (phaseIndex_range ph).
    destruct (Z.leb_spec (phaseIndex ph) idx); [lia | reflexivity].
  - unfold progressPhase; destruct (below100 p), ph; reflexivity.
  - unfold progressPhase; destruct (below100 p), ph; reflexivity.
  - unfold progressPhase; destruct (below100 p), ph; reflexivity.
  - unfold progressPhase; destruct (below100 p), ph; reflexivity.
  - unfold progressPhase; destruct (below100 p), ph; reflexivity.
Qed.

Lemma phase_fraction (p : Q) : (p / 100 * 5 == p * (1 # 20))%Q.
Proof. field. Qed.


Lemma currentPhaseIndexOf_le_4 (p : Q) : currentPhaseIndexOf p <= 4.
Proof.
  unfold currentPhaseIndexOf.
  destruct (Z.geb_spec (Qfloor (p / 100 * 5)) 5); lia.
Qed.


Lemma currentPhaseIndexOf_100 (p : Q) :
  (100 <= p)%Q -> currentPhaseIndexOf p = 4.
Proof.
  intros H. unfold currentPhaseIndexOf.
  assert (Hf : Qfloor 5 <= Qfloor (p / 100 * 5)).
  { apply Qfloor_resp_le. rewrite phase_fraction. lra. }
  change (Qfloor 5) with 5 in Hf.
  destruct (Z.geb_spec (Qfloor (p / 100 * 5)) 5); lia.
Qed.

Lemma below100_false (p : Q) : below100 p = false <-> (100 <= p)%Q.
Proof.
  unfold below100. rewrite negb_false_iff. apply Qle_bool_iff.
Qed.

Lemma Status_eqb_eq (s t : Status) : Status_eqb s t = true <-> s = t.
Proof. destruct s, t; simpl; split; congruence. Qed.

(** A call on a plan that has no start time, or is completed, returns the
    plan as it is. *)
Lemma simulateResponseProgress_noop (plan : ResponsePlan) (p : Q) (now : time) :
  startTime plan = None \/ status plan = COMPLETED ->
  simulateResponseProgress plan p now = Ok plan.
Proof.
  unfold simulateResponseProgress. intros [H | H]; rewrite H.
  - reflexivity.
  - destruct (startTime plan); reflexivity.
Qed.

(** A call on a started plan that is not completed, property by
    property. *)
Lemma simulateResponseProgress_active (plan : ResponsePlan) (p : Q) (now : time)
    (t0 : time) (ss : list Step) (ns : list Note) :
  startTime plan = Some t0 ->
  status plan <> COMPLETED ->
  responseSteps plan = Some ss ->
  notes plan = Some ns ->
  exists plan' n,
    simulateResponseProgress plan p now = Ok plan'
    /\ (forall ph,
           entry (timeline plan') ph
           = progressedEntry now p (currentPhaseIndexOf p) ph
                             (entry (timeline plan) ph))
    /\ responseSteps plan'
       = Some (map (progressStep now p (currentPhaseIndexOf p)) ss)
    /\ status plan' = (if Qle_bool 100 p then COMPLETED else status plan)
    /\ startTime plan' = Some t0
    /\ notes plan' = Some (ns ++ [n])%list
    /\ estimatedCompletionTime plan' = estimatedCompletionTime plan.
Proof.
  intros Hst Hs Hss Hns.
  unfold simulateResponseProgress. rewrite Hst.
  destruct (Status_eqb (status plan) COMPLETED) eqn:E;
    [apply Status_eqb_eq in E; contradiction |].
  unfold forEachStep. simpl. rewrite Hss. simpl.
  destruct (Qle_bool 100 p); unfold pushNote; simpl; rewrite Hns;
    eexists; eexists; (split; [reflexivity |]); simpl;
    (split; [intros ph; apply progress_loop_entry, currentPhaseIndexOf_le_4 |]);
    repeat split; auto.
Qed.

(** [startResponse] on a plan that has its steps and notes, property by
    property. *)
Lemma startResponse_ok (plan : ResponsePlan) (now : time)
    (ss : list Step) (ns : list Note) :
  responseSteps plan = Some ss ->
  notes plan = Some ns ->
  exists plan' ss',
    startResponse plan now = Ok plan'
    /\ status plan' = IN_PROGRESS
    /\ startTime plan' = Some now
    /\ responseSteps plan' = Some ss'
    /\ notes plan' = Some (ns ++ [systemNote now ResponseInitiated])%list
    /\ estimatedCompletionTime plan' = estimatedCompletionTime plan
    /\ (forall ph,
           entry (timeline plan') ph
           = if Phase_eqb ph IDENTIFICATION
             then set_phase_startTime now
                    (set_phase_status IN_PROGRESS (entry (timeline plan) ph))
             else entry (timeline plan) ph).
Proof.
  intros Hss Hns. unfold startResponse, forEachStep. simpl. rewrite Hss. simpl.
  unfold pushNote. simpl. rewrite Hns.
  eexists; eexists; split; [reflexivity |]. simpl.
  repeat split; auto.
  intros ph; destruct ph; reflexivity.
Qed.

Lemma startResponse_inv (plan plan' : ResponsePlan) (now : time) :
  startResponse plan now = Ok plan' ->
  exists ss ns, responseSteps plan = Some ss /\ notes plan = Some ns.
Proof.
  unfold startResponse, forEachStep. simpl.
  destruct (responseSteps plan) as [ss |]; simpl; [| discriminate].
  unfold pushNote. simpl.
  destruct (notes plan) as [ns |]; [| discriminate]. eauto.
Qed.

(** [updateResponsePhase] leaves the timeline, the steps and the estimate
    alone. *)
Lemma updateResponsePhase_inv (plan plan' : ResponsePlan) (newPhase : jsstring)
    (extra : option string) (now : time) :
  updateResponsePhase plan newPhase extra now = Ok plan' ->
  timeline plan' = timeline plan
  /\ responseSteps plan' = responseSteps plan
  /\ estimatedCompletionTime plan' = estimatedCompletionTime plan.
Proof.
  unfold updateResponsePhase, pushNote.
  destruct (newPhase === phaseName LESSONS_LEARNED); simpl;
    (destruct (notes plan); simpl; [| discriminate]);
    (destruct extra as [s |]; [destruct (String.eqb s "") |]); simpl;
    intros [= <-]; auto.
Qed.

(** *** Time stamps *)

Lemma progressedEntry_keeps_start (now : time) (p : Q) (idx : Z) (ph : Phase)
    (e : PhaseEntry) (t : time) :
  phase_startTime e = Some t ->
  phase_startTime (progressedEntry now p idx ph e) = Some t.
Proof.
  destruct e as [d s f st]. simpl. intros ->.
  unfold progressedEntry, stampPhaseEnd, stampPhaseStart.
  destruct (phaseIndex ph <=? idx); [| reflexivity].
  destruct ((phaseIndex ph =? idx) && below100 p); simpl; [reflexivity |].
  destruct f; reflexivity.
Qed.

Lemma progressedEntry_keeps_end (now : time) (p : Q) (idx : Z) (ph : Phase)
    (e : PhaseEntry) (t : time) :
  phase_endTime e = Some t ->
  phase_endTime (progressedEntry now p idx ph e) = Some t.
Proof.
  destruct e as [d s f st]. simpl. intros ->.
  unfold progressedEntry, stampPhaseEnd, stampPhaseStart.
  destruct (phaseIndex ph <=? idx); [| reflexivity].
  destruct ((phaseIndex ph =? idx) && below100 p); destruct s; reflexivity.
Qed.

(** A call of [simulateResponseProgress] that returns either did nothing
    or ran on a started plan with its steps and notes. *)
Lemma simulateResponseProgress_inv (plan plan' : ResponsePlan) (p : Q) (now : time) :
  simulateResponseProgress plan p now = Ok plan' ->
  plan' = plan
  \/ exists t0 ss ns,
       startTime plan = Some t0 /\ status plan <> COMPLETED
       /\ responseSteps plan = Some ss /\ notes plan = Some ns.
Proof.
  intros H.
  destruct (startTime plan) as [t0 |] eqn:Hst.
  2:{ rewrite simulateResponseProgress_noop in H by auto.
      left. congruence. }
  destruct (Status_eqb (status plan) COMPLETED) eqn:E.
  { apply Status_eqb_eq in E.
    rewrite simulateResponseProgress_noop in H by auto.
    left. congruence. }
  right. exists t0.
  assert (Hs : status plan <> COMPLETED).
  { intros Hc. apply Status_eqb_eq in Hc. congruence. }
  unfold simulateResponseProgress in H. rewrite Hst, E in H.
  unfold forEachStep in H. simpl in H.
  destruct (responseSteps plan) as [ss |]; [| discriminate].
  exists ss. simpl in H.
  destruct (notes plan) as [ns |] eqn:Hns; [exists ns; auto |].
  destruct (Qle_bool 100 p); unfold pushNote in H; simpl in H;
    rewrite Hns in H; discriminate.
Qed.

Lemma simulateResponseProgress_entries (plan plan' : ResponsePlan) (p : Q)
    (now : time) (ph : Phase) :
  simulateResponseProgress plan p now = Ok plan' ->
  entry (timeline plan') ph = entry (timeline plan) ph
  \/ entry (timeline plan') ph
     = progressedEntry now p (currentPhaseIndexOf p) ph (entry (timeline plan) ph).
Proof.
  intros H.
  destruct (simulateResponseProgress_inv _ _ _ _ H)
    as [-> | [t0 [ss [ns [Hst [Hs [Hss Hns]]]]]]]; [now left |].
  destruct (simulateResponseProgress_active plan p now t0 ss ns Hst Hs Hss Hns)
    as [q [n [Hq [He _]]]].
  rewrite Hq in H. injection H as <-. right. apply He.
Qed.

(** One operation: an end time that is set stays as it is, and so does a
    start time unless the operation is [startResponse] and the phase is
    identification. *)
Lemma apply_keeps_timestamps (op : Operation) (plan plan' : ResponsePlan)
    (now : time) (ph : Phase) (t : time) :
  apply op plan now = Ok plan' ->
  (phase_endTime (entry (timeline plan) ph) = Some t ->
   phase_endTime (entry (timeline plan') ph) = Some t)
  /\ (phase_startTime (entry (timeline plan) ph) = Some t ->
      ph <> IDENTIFICATION \/ isStart op = false ->
      phase_startTime (entry (timeline plan') ph) = Some t).
Proof.
  destruct op as [| p | newPhase extra]; simpl; intros H.
  - destruct (startResponse_inv _ _ _ H) as [ss [ns [Hss Hns]]].
    destruct (startResponse_ok plan now ss ns Hss Hns)
      as [q [ss' [Hq [_ [_ [_ [_ [_ He]]]]]]]].
    rewrite Hq in H. injection H as <-. rewrite He.
    split.
    + destruct (Phase_eqb ph IDENTIFICATION); auto.
    + intros Ht [Hph | Hop]; [| discriminate].
      destruct ph; simpl; auto. contradiction.
  - destruct (simulateResponseProgress_entries _ _ _ _ ph H) as [-> | ->].
    + auto.
    + split; intros; [now apply progressedEntry_keeps_end
                     | now apply progressedEntry_keeps_start].
  - destruct (updateResponsePhase_inv _ _ _ _ _ H) as [-> _]. auto.
Qed.

(** C9 (as amended).  Over every sequence of [startResponse],
    [simulateResponseProgress] and [updateResponsePhase] calls that
    returns, a phase's [endTime], once set, keeps its value, and so does
    its [startTime] for every phase other than identification and, for
    identification, over sequences without [startResponse]. *)
Theorem timestamps_kept (ops : list (Operation * time)) (plan plan' : ResponsePlan)
    (ph : Phase) (t : time) :
  run plan ops = Ok plan' ->
  (phase_endTime (entry (timeline plan) ph) = Some t ->
   phase_endTime (entry (timeline plan') ph) = Some t)
  /\ (phase_startTime (entry (timeline plan) ph) = Some t ->
      ph <> IDENTIFICATION \/ existsb (fun o => isStart (fst o)) ops = false ->
      phase_startTime (entry (timeline plan') ph) = Some t).
Proof.
  revert plan. induction ops as [| [op now] ops IH]; intros plan; simpl.
  - intros [= <-]. auto.
  - destruct (apply op plan now) as [mid | e] eqn:Hop; simpl; [| discriminate].
    intros Hrun. destruct (IH mid Hrun) as [IHe IHs].
    destruct (apply_keeps_timestamps op plan mid now ph t Hop) as [He Hs].
    split.
    + auto.
    + intros Ht Hside. apply IHs.
      * apply Hs; [exact Ht |].
        destruct Hside as [Hph | Hno]; [now left | right].
        apply orb_false_iff in Hno. tauto.
      * destruct Hside as [Hph | Hno]; [now left | right].
        apply orb_false_iff in Hno. tauto.
Qed.

Lemma timestamps_kept_witness :
  run startedPlan laterOperations = Ok finishedPlan
  /\ (phase_endTime (entry (timeline startedPlan) CONTAINMENT) = Some 2000 ->
      phase_endTime (entry (timeline finishedPlan) CONTAINMENT) = Some 2000)
  /\ (phase_startTime (entry (timeline startedPlan) CONTAINMENT) = Some 2000 ->
      CONTAINMENT <> IDENTIFICATION
      \/ existsb (fun o => isStart (fst o)) laterOperations = false ->
      phase_startTime (entry (timeline finishedPlan) CONTAINMENT) = Some 2000).
Proof.
  split.
  - vm_compute. reflexivity.
  - apply (timestamps_kept laterOperations startedPlan finishedPlan CONTAINMENT 2000).
    vm_compute. reflexivity.
Defined.

(** C9, as stated, fails: a second [startResponse] overwrites the start
    time of the identification phase. *)
Lemma startResponse_overwrites_startTime :
  exists p1 p2,
    run samplePlan [(OpStartResponse, 1000)] = Ok p1
    /\ run p1 [(OpStartResponse, 2000)] = Ok p2
    /\ phase_startTime (entry (timeline p1) IDENTIFICATION) = Some 1000
    /\ phase_startTime (entry (timeline p2) IDENTIFICATION) = Some 2000
    /\ phase_startTime (entry (timeline p2) IDENTIFICATION)
       <> phase_startTime (entry (timeline p1) IDENTIFICATION).
Proof.
  eexists. eexists.
  split; [vm_compute; reflexivity |].
  split; [vm_compute; reflexivity |].
  split; [reflexivity |].
  split; [reflexivity |].
  simpl. discriminate.
Qed.

(** *** Progress *)

Lemma progressedEntry_completed (now : time) (p : Q) (idx : Z) (ph : Phase)
    (e : PhaseEntry) :
  phaseIndex ph <= idx ->
  phaseIndex ph <> idx \/ below100 p = false ->
  phase_status (progressedEntry now p idx ph e) = COMPLETED.
Proof.
  intros Hle Hcur. unfold progressedEntry, stampPhaseEnd, stampPhaseStart.
  destruct (Z.leb_spec (phaseIndex ph) idx); [| lia].
  assert (E : (phaseIndex ph =? idx) && below100 p = false).
  { destruct Hcur as [Hne | ->]; [| apply andb_false_r].
    apply Z.eqb_neq in Hne. now rewrite Hne. }
  rewrite E. destruct e as [d a f st]; simpl.
  destruct a, f; reflexivity.
Qed.



Lemma progressStep_at_100 (now : time) (p : Q) (s : Step) :
  (p == 100)%Q ->
  step_status (progressStep now p 4 s) = COMPLETED.
Proof.
  intros Hp. unfold progressStep, stampStepEnd, stampStepStart.
  pose proof (phaseIndex_range (step_phase s)) as Hr.
  destruct (Z.ltb_spec (phaseIndex (step_phase s)) 4).
  - destruct s as [i d ph tm st du b f]; simpl. destruct b, f; reflexivity.
  - destruct (Z.eqb_spec (phaseIndex (step_phase s)) 4); [| lia].
    apply Qeq_bool_iff in Hp. rewrite Hp.
    destruct s as [i d ph tm st du b f]; simpl. destruct b, f; reflexivity.
Qed.






(** ** The report *)






(** ** The classifier *)








(** C10.  An alert returned by [simulateAIDetection] has severity medium,
    high or critical, and never low. *)
Theorem simulateAIDetection_severity (device : Device) (now : time)
    (score r : Q) (alert : ThreatAlert) :
  simulateAIDetection device now score r = Some alert ->
  (a_severity alert = Some SEVERITY.MEDIUM
   \/ a_severity alert = Some SEVERITY.HIGH
   \/ a_severity alert = Some SEVERITY.CRITICAL)
  /\ a_severity alert <> Some SEVERITY.LOW.
Proof.
  unfold simulateAIDetection, analyzeDeviceBehavior.
  cbn [isAnomaly patterns].
  destruct (Qgtb score (7 # 10)); [| discriminate].
  destruct (device_type device === "camera");
    destruct (device_type device === "trafficLight");
    destruct (device_type device === "waterSensor");
    destruct (Qgtb score (8 # 10));
    destruct (Qgtb score (75 # 100));
    destruct (Qgtb score (9 # 10));
    cbv -[Qfloor Qmin Qmult Qplus];
    intros [= <-]; cbv; (split; [tauto | discriminate]).
Qed.

Lemma simulateAIDetection_severity_witness :
  exists alert,
    simulateAIDetection sampleCamera 1700000000000 (8 # 10) (1 # 2) = Some alert
    /\ (a_severity alert = Some SEVERITY.MEDIUM
        \/ a_severity alert = Some SEVERITY.HIGH
        \/ a_severity alert = Some SEVERITY.CRITICAL)
    /\ a_severity alert <> Some SEVERITY.LOW.
Proof.
  eexists. split; [vm_compute; reflexivity |].
  apply (simulateAIDetection_severity sampleCamera 1700000000000 (8 # 10) (1 # 2)).
  vm_compute. reflexivity.
Defined.

(** ** The estimate under the operations *)

Lemma progressedEntry_keeps_duration (now : time) (p : Q) (idx : Z) (ph : Phase)
    (e : PhaseEntry) :
  estimatedDuration (progressedEntry now p idx ph e) = estimatedDuration e.
Proof.
  unfold progressedEntry, stampPhaseEnd, stampPhaseStart.
  destruct e as [d a f st]; simpl.
  destruct (phaseIndex ph <=? idx); [| reflexivity].
  destruct ((phaseIndex ph =? idx) && below100 p); destruct a, f; reflexivity.
Qed.

(** No operation of the state machine changes an estimated duration or
    the estimated completion time: a plan whose estimate is the sum of
    its durations keeps that property. *)
Lemma apply_keeps_estimate (op : Operation) (plan plan' : ResponsePlan)
    (now : time) :
  apply op plan now = Ok plan' ->
  estimatedCompletionTime plan' = estimatedCompletionTime plan
  /\ forall ph,
       estimatedDuration (entry (timeline plan') ph)
       = estimatedDuration (entry (timeline plan) ph).
Proof.
  destruct op as [| p | newPhase extra]; simpl; intros H.
  - destruct (startResponse_inv _ _ _ H) as [ss [ns [Hss Hns]]].
    destruct (startResponse_ok plan now ss ns Hss Hns)
      as [q [ss' [Hq [_ [_ [_ [_ [Hest He]]]]]]]].
    rewrite Hq in H. injection H as <-. split; [exact Hest |].
    intros ph. rewrite He. destruct (Phase_eqb ph IDENTIFICATION); reflexivity.
  - destruct (simulateResponseProgress_inv _ _ _ _ H)
      as [-> | [t0 [ss [ns [Hst [Hs [Hss Hns]]]]]]]; [auto |].
    destruct (simulateResponseProgress_active plan p now t0 ss ns Hst Hs Hss Hns)
      as [q [n [Hq [He [_ [_ [_ [_ Hest]]]]]]]].
    rewrite Hq in H. injection H as <-. split; [exact Hest |].
    intros ph. rewrite He. apply progressedEntry_keeps_duration.
  - destruct (updateResponsePhase_inv _ _ _ _ _ H) as [-> [_ ->]]. auto.
Qed.

Lemma apply_keeps_estimateIsSum (op : Operation) (plan plan' : ResponsePlan)
    (now : time) :
  apply op plan now = Ok plan' ->
  estimateIsSum plan' = estimateIsSum plan.
Proof.
  intros H. destruct (apply_keeps_estimate op plan plan' now H) as [Hest Hd].
  unfold estimateIsSum, durations, values. rewrite Hest.
  pose proof (Hd IDENTIFICATION) as H0. pose proof (Hd CONTAINMENT) as H1.
  pose proof (Hd ERADICATION) as H2. pose proof (Hd RECOVERY) as H3.
  pose proof (Hd LESSONS_LEARNED) as H4.
  simpl in *. rewrite H0, H1, H2, H3, H4. reflexivity.
Qed.

(** * Further properties *)

(** ** The steps of a response *)

Lemma indexed_descriptions {A : Type} (xs : list A) (start : nat) :
  map snd (combine (seq start (List.length xs)) xs) = xs.
Proof.
  revert start. induction xs as [| x xs IH]; intros start; simpl.
  - reflexivity.
  - now rewrite IH.
Qed.

Lemma stepOfAction_shape (tl : Timeline) (i : nat) (action : string) :
  includes objectPrototypeKeys action = false ->
  exists s,
    stepOfAction (VTimeline tl) (i, action) = Ok s
    /\ step_description s = action
    /\ step_status s = PENDING
    /\ step_startTime s = None
    /\ step_endTime s = None.
Proof.
  intros H. unfold stepOfAction, getProperty at 1.
  destruct (find _ phaseMap); [| rewrite H]; simpl; eauto 6.
Qed.

Lemma mapM_stepOfAction_shape (tl : Timeline) (ixs : list (nat * string)) :
  (forall ia, In ia ixs -> includes objectPrototypeKeys (snd ia) = false) ->
  exists ss,
    mapM (stepOfAction (VTimeline tl)) ixs = Ok ss
    /\ map step_description ss = map snd ixs
    /\ forall s, In s ss ->
         step_status s = PENDING /\ step_startTime s = None
         /\ step_endTime s = None.
Proof.
  induction ixs as [| [i a] ixs IH]; intros H.
  - exists []. split; [reflexivity |]. split; [reflexivity |]. intros s [].
  - destruct (stepOfAction_shape tl i a) as [s [Hs [Hd Hp]]];
      [apply (H (i, a)); now left |].
    destruct IH as [ss [Hss [Hds Hall]]]; [intros ia Hia; apply H; now right |].
    exists (s :: ss). cbn [mapM]. rewrite Hs. cbn [bind]. rewrite Hss.
    split; [reflexivity |]. split; [simpl; now rewrite Hd, Hds |].
    intros s' [<- | Hin]; auto.
Qed.

(** X1.  Called as documented, on an array of actions none of which
    names an inherited member and with a timeline, [generateResponseSteps]
    returns one step per action, in order, and a closing documentation
    step: all pending, without time stamps; the closing step belongs to
    the lessons-learned phase and the management team and carries the
    whole estimated duration of that phase. *)
Theorem generateResponseSteps_shape (actions : list string) (tl : Timeline) :
  (forall a, In a actions -> includes objectPrototypeKeys a = false) ->
  exists ss final,
    generateResponseSteps (VArray actions) (VTimeline tl) = Ok (ss ++ [final])%list
    /\ map step_description ss = actions
    /\ (forall s, In s (ss ++ [final])%list ->
          step_status s = PENDING /\ step_startTime s = None
          /\ step_endTime s = None)
    /\ step_description final = "Document incident and update response procedures"
    /\ step_phase final = LESSONS_LEARNED
    /\ assignedTeam final = RESPONSE_TEAMS.MANAGEMENT
    /\ step_estimatedDuration final = estimatedDuration (lessons_learned tl).
Proof.
  intros H.
  destruct (mapM_stepOfAction_shape tl (indexed actions)) as [ss [Hss [Hd Hall]]].
  { intros [i a] Hin. apply H. unfold indexed in Hin.
    now apply in_combine_r in Hin. }
  unfold generateResponseSteps. rewrite Hss. cbn [bind phaseEntryOf].
  eexists. eexists. split; [reflexivity |].
  split; [rewrite Hd; apply indexed_descriptions |].
  split; [| repeat split].
  intros s Hin. apply in_app_or in Hin. destruct Hin as [Hin | [<- | []]].
  - now apply Hall.
  - repeat split.
Qed.

Lemma generateResponseSteps_shape_witness :
  exists ss final,
    generateResponseSteps (VArray ["Reset all access credentials"; "Call the vendor"])
                          (VTimeline (createResponseTimeline None (Some "high")))
    = Ok (ss ++ [final])%list
    /\ map step_description ss = ["Reset all access credentials"; "Call the vendor"]
    /\ step_phase final = LESSONS_LEARNED.
Proof.
  destruct (generateResponseSteps_shape
              ["Reset all access credentials"; "Call the vendor"]
              (createResponseTimeline None (Some "high")))
    as [ss [final [H1 [H2 [_ [_ [H3 _]]]]]]].
  - intros a [<- | [<- | []]]; vm_compute; reflexivity.
  - exists ss, final. auto.
Defined.

Lemma inherited_not_mapped (action : string) :
  includes objectPrototypeKeys action = true ->
  getProperty phaseMap action = Inherited.
Proof.
  intros H. unfold getProperty. rewrite H.
  unfold includes in H. apply existsb_exists in H.
  destruct H as [k [Hin Heq]]. apply String.eqb_eq in Heq. subst k.
  unfold objectPrototypeKeys in Hin. simpl in Hin.
  repeat (destruct Hin as [<- | Hin]; [reflexivity |]). destruct Hin.
Qed.

Lemma mapM_throws {A B : Type} (f : A -> result B) (xs : list A) (x : A) (e : exn) :
  In x xs -> f x = Throw e -> exists e', mapM f xs = Throw e'.
Proof.
  induction xs as [| y ys IH]; intros Hin Hx; [destruct Hin |].
  cbn [mapM]. destruct (f y) as [b | e0] eqn:Hy; cbn [bind]; [| eauto].
  destruct Hin as [-> | Hin]; [congruence |].
  destruct (IH Hin Hx) as [e' He']. rewrite He'. cbn [bind]. eauto.
Qed.

Lemma in_indexed {A : Type} (xs : list A) (x : A) :
  In x xs -> exists i, In (i, x) (indexed xs).
Proof.
  unfold indexed. generalize 0%nat.
  induction xs as [| y ys IH]; intros n Hin; [destruct Hin |].
  destruct Hin as [-> | Hin]; simpl.
  - exists n. now left.
  - destruct (IH (S n) Hin) as [i Hi]. exists i. now right.
Qed.

(** X2.  An action whose text is the name of a member every object
    inherits ("constructor", "toString", "__proto__", ...) makes
    [generateResponseSteps] throw, even with a proper timeline: the lookup
    in the phase table finds the inherited member, under which the
    timeline has no entry. *)
Theorem generateResponseSteps_inherited_action (actions : list string)
    (tl : Timeline) (action : string) :
  In action actions ->
  includes objectPrototypeKeys action = true ->
  exists e, generateResponseSteps (VArray actions) (VTimeline tl) = Throw e.
Proof.
  intros Hin Hk. unfold generateResponseSteps.
  destruct (in_indexed actions action Hin) as [i Hi].
  destruct (mapM_throws (stepOfAction (VTimeline tl)) (indexed actions) (i, action)
              (TypeError "Cannot read properties of undefined (reading 'estimatedDuration')")
              Hi) as [e He].
  - unfold stepOfAction. now rewrite (inherited_not_mapped action Hk).
  - rewrite He. cbn [bind]. eauto.
Qed.

Lemma generateResponseSteps_inherited_action_witness :
  exists e,
    generateResponseSteps (VArray ["Reset all access credentials"; "constructor"])
                          (VTimeline (createResponseTimeline None (Some "high")))
    = Throw e.
Proof.
  apply (generateResponseSteps_inherited_action
           ["Reset all access credentials"; "constructor"]
           (createResponseTimeline None (Some "high")) "constructor").
  - simpl. auto.
  - vm_compute. reflexivity.
Defined.

(** Splits on every condition of a table-driven function, then computes. *)
Ltac split_conditions :=
  cbv zeta;
  repeat match goal with
         | |- context [strict_eq ?x ?c] =>
             let b := fresh "b" in
             set (b := strict_eq x c) in *; clearbody b; destruct b
         end.

Lemma recommended_actions_mapped (threatType severity : jsstring) (device : Device) :
  forallb mapped (generateRecommendedActions threatType severity device) = true.
Proof.
  unfold generateRecommendedActions.
  unfold SEVERITY.CRITICAL, SEVERITY.HIGH, THREAT_TYPES.UNAUTHORIZED_ACCESS,
    THREAT_TYPES.DATA_MANIPULATION, THREAT_TYPES.FIRMWARE_TAMPERING,
    THREAT_TYPES.MALWARE, THREAT_TYPES.RANSOMWARE.
  split_conditions; vm_compute; reflexivity.
Qed.

Lemma mapped_own (action : string) :
  mapped action = true ->
  includes objectPrototypeKeys action = false
  /\ exists ph tm,
       getProperty phaseMap action = Own ph /\ getProperty teamMap action = Own tm.
Proof.
  unfold mapped.
  destruct (getProperty phaseMap action) as [ph | |]; try discriminate.
  destruct (getProperty teamMap action) as [tm | |]; try discriminate.
  intros H. apply negb_true_iff in H. eauto.
Qed.

(** X3.  The two modules fit: every action [generateRecommendedActions]
    can produce, for any threat type, severity and device, is listed in
    both the phase table and the team table of [generateResponseSteps],
    so that the steps built from an alert's actions never fall back to the
    default phase or team, and the call returns. *)
Theorem recommended_actions_have_steps (threatType severity : jsstring)
    (device : Device) (tl : Timeline) :
  (forall a, In a (generateRecommendedActions threatType severity device) ->
     exists ph tm,
       getProperty phaseMap a = Own ph /\ getProperty teamMap a = Own tm)
  /\ exists ss,
       generateResponseSteps
         (VArray (generateRecommendedActions threatType severity device))
         (VTimeline tl) = Ok ss
       /\ List.length ss
          = S (List.length (generateRecommendedActions threatType severity device)).
Proof.
  pose proof (recommended_actions_mapped threatType severity device) as H.
  rewrite forallb_forall in H.
  split.
  - intros a Ha. now apply mapped_own, H.
  - destruct (generateResponseSteps_shape
                (generateRecommendedActions threatType severity device) tl)
      as [ss [final [Hr [Hd _]]]].
    + intros a Ha. now apply mapped_own, H.
    + eexists. split; [exact Hr |].
      rewrite length_app, <- Hd, length_map. simpl. lia.
Qed.

Lemma recommended_actions_check (threatType severity : jsstring) (device : Device) :
  let actions := generateRecommendedActions threatType severity device in
  distinct actions && (List.length actions <=? 8)%nat = true.
Proof.
  unfold generateRecommendedActions.
  unfold SEVERITY.CRITICAL, SEVERITY.HIGH, THREAT_TYPES.UNAUTHORIZED_ACCESS,
    THREAT_TYPES.DATA_MANIPULATION, THREAT_TYPES.FIRMWARE_TAMPERING,
    THREAT_TYPES.MALWARE, THREAT_TYPES.RANSOMWARE.
  split_conditions; vm_compute; reflexivity.
Qed.

Lemma distinct_NoDup (xs : list string) : distinct xs = true -> NoDup xs.
Proof.
  induction xs as [| x xs IH]; simpl; intros H; constructor.
  - apply andb_true_iff in H. destruct H as [H _].
    apply negb_true_iff in H. intros Hin.
    assert (includes xs x = true); [| congruence].
    unfold includes. apply existsb_exists. exists x.
    split; [exact Hin | apply String.eqb_refl].
  - apply IH. apply andb_true_iff in H. tauto.
Qed.

(** X4.  For every threat type, severity and device, the list of
    [generateRecommendedActions] starts with the two baseline actions, has
    between two and eight entries and names no action twice. *)
Theorem recommended_actions_distinct (threatType severity : jsstring)
    (device : Device) :
  firstn 2 (generateRecommendedActions threatType severity device)
  = baselineActions
  /\ (2 <= List.length (generateRecommendedActions threatType severity device) <= 8)%nat
  /\ NoDup (generateRecommendedActions threatType severity device).
Proof.
  pose proof (recommended_actions_check threatType severity device) as H.
  cbv zeta in H. apply andb_true_iff in H. destruct H as [Hd Hl].
  assert (Hf : firstn 2 (generateRecommendedActions threatType severity device)
               = baselineActions) by reflexivity.
  split; [exact Hf |]. split; [| now apply distinct_NoDup].
  split; [| now apply Nat.leb_le].
  assert (Hlen : List.length (firstn 2 (generateRecommendedActions threatType severity device)) = 2%nat)
    by (rewrite Hf; reflexivity).
  rewrite length_firstn in Hlen. lia.
Qed.

(** ** Detection *)

Lemma Qgtb_true (x y : Q) : Qgtb x y = true <-> (y < x)%Q.
Proof.
  unfold Qgtb. rewrite negb_true_iff. split; intros H.
  - apply Qnot_le_lt. intros Hle. apply Qle_bool_iff in Hle. congruence.
  - destruct (Qle_bool x y) eqn:E; [| reflexivity].
    apply Qle_bool_iff in E. lra.
Qed.

Lemma Qgtb_false (x y : Q) : Qgtb x y = false <-> (x <= y)%Q.
Proof.
  unfold Qgtb. rewrite negb_false_iff. apply Qle_bool_iff.
Qed.

(** X5.  [simulateAIDetection] returns no alert exactly when the anomaly
    score is at most 0.7, whatever the device. *)
Theorem simulateAIDetection_null (device : Device) (now : time) (score r : Q) :
  simulateAIDetection device now score r = None <-> (score <= 7 # 10)%Q.
Proof.
  unfold simulateAIDetection, analyzeDeviceBehavior. cbn [isAnomaly patterns].
  rewrite <- Qgtb_false.
  destruct (Qgtb score (7 # 10)); simpl.
  - match goal with
    | |- context [let '(_, _) := ?c in _] => destruct c
    end.
    split; discriminate.
  - split; reflexivity.
Qed.

(** X6.  The severity of an alert of [simulateAIDetection] is decided by
    the device type and the score alone: high for a camera; critical for
    a traffic light above 0.8 and medium below; medium for a water
    sensor; for any other device high above 0.9 and medium below. *)
Theorem simulateAIDetection_severity_table (device : Device) (now : time)
    (score r : Q) (alert : ThreatAlert) :
  simulateAIDetection device now score r = Some alert ->
  a_severity alert = Some (detectedSeverity device score).
Proof.
  unfold simulateAIDetection, analyzeDeviceBehavior, detectedSeverity.
  cbn [isAnomaly patterns].
  destruct (Qgtb score (7 # 10)) eqn:E7; [| discriminate].
  cbn [negb].
  match goal with
  | |- context [let '(_, _) := ?c in _] => destruct c as [t s] eqn:Epair
  end.
  intros [= <-].
  cbn [a_severity generateThreatAlert threatDataOfClassification td_severity].
  unfold classifyThreat. destruct (threatProfile (Some t)). cbn [c_severity].
  f_equal. revert Epair.
  destruct (device_type device === "camera"); cbn [andb].
  { cbn. intros [= _ <-]. reflexivity. }
  destruct (device_type device === "trafficLight"); cbn [andb].
  { destruct (Qgtb score (8 # 10)) eqn:E8.
    - cbn. intros [= _ <-]. reflexivity.
    - destruct (device_type device === "waterSensor"); cbn [andb].
      + destruct (Qgtb score (75 # 100)) eqn:E75.
        * cbn. intros [= _ <-]. reflexivity.
        * destruct (Qgtb score (9 # 10)) eqn:E9.
          -- apply Qgtb_true in E9. apply Qgtb_false in E8. lra.
          -- cbn. intros [= _ <-]. reflexivity.
      + destruct (Qgtb score (9 # 10)) eqn:E9.
        * apply Qgtb_true in E9. apply Qgtb_false in E8. lra.
        * cbn. intros [= _ <-]. reflexivity. }
  destruct (device_type device === "waterSensor"); cbn [andb].
  { destruct (Qgtb score (75 # 100)) eqn:E75.
    - cbn. intros [= _ <-]. reflexivity.
    - destruct (Qgtb score (9 # 10)) eqn:E9.
      + apply Qgtb_true in E9. apply Qgtb_false in E75. lra.
      + cbn. intros [= _ <-]. reflexivity. }
  destruct (Qgtb score (9 # 10)) eqn:E9; cbn; intros [= _ <-]; reflexivity.
Qed.

Lemma simulateAIDetection_severity_table_witness :
  exists alert,
    simulateAIDetection
      {| device_id := Some "tl-1"; device_name := Some "Signal 1";
         device_type := Some "trafficLight" |}
      1700000000000 (85 # 100) (1 # 2) = Some alert
    /\ a_severity alert = Some "critical".
Proof.
  eexists. split; [vm_compute; reflexivity |].
  apply (simulateAIDetection_severity_table
           {| device_id := Some "tl-1"; device_name := Some "Signal 1";
              device_type := Some "trafficLight" |}
           1700000000000 (85 # 100) (1 # 2)).
  vm_compute. reflexivity.
Defined.

(** X7.  The threat type chosen by [simulateAIDetection] does not reach
    the alert: [classifyThreat] returns it as [type] and
    [generateThreatAlert] reads [threatType].  Every alert has an
    undefined threat type, a confidence of 0.5 + score * 0.4, and no
    action outside the two baseline actions, the two notifications of a
    critical severity and the manual traffic control of a traffic
    light. *)
Theorem simulateAIDetection_loses_threat_type (device : Device) (now : time)
    (score r : Q) (alert : ThreatAlert) :
  simulateAIDetection device now score r = Some alert ->
  a_threatType alert = None
  /\ a_confidence alert = Some ((5 # 10) + score * (4 # 10))%Q
  /\ forall a, In a (a_recommendedActions alert) -> In a detectionActions.
Proof.
  unfold simulateAIDetection, analyzeDeviceBehavior. cbn [isAnomaly patterns].
  destruct (Qgtb score (7 # 10)) eqn:E7; [| discriminate].
  apply Qgtb_true in E7.
  assert (Hz : Qeq_bool score 0 = false).
  { destruct (Qeq_bool score 0) eqn:E; [| reflexivity].
    apply Qeq_bool_iff in E. lra. }
  match goal with
  | |- context [let '(_, _) := ?c in _] => destruct c as [t s]
  end.
  intros [= <-]. cbn [a_threatType a_confidence a_recommendedActions
                      generateThreatAlert threatDataOfClassification
                      td_threatType td_severity td_confidence].
  split; [reflexivity |]. split.
  - unfold classifyThreat. destruct (threatProfile (Some t)).
    cbn [c_confidence confidenceOf anomalyScore]. now rewrite Hz.
  - unfold classifyThreat. destruct (threatProfile (Some t)).
    cbn [c_severity]. unfold generateRecommendedActions, strict_eq at 1 2 3 4 5 6 7.
    cbv zeta.
    destruct (Some s === SEVERITY.CRITICAL), (Some s === SEVERITY.HIGH),
      (device_type device === "trafficLight"), (device_type device === "camera");
      simpl; unfold detectionActions, baselineActions; simpl; intuition auto.
Qed.

Lemma simulateAIDetection_loses_threat_type_witness :
  exists alert,
    simulateAIDetection sampleCamera 1700000000000 (8 # 10) (1 # 2) = Some alert
    /\ a_threatType alert = None
    /\ a_recommendedActions alert = baselineActions.
Proof.
  eexists. split; [vm_compute; reflexivity |].
  destruct (simulateAIDetection_loses_threat_type sampleCamera 1700000000000
              (8 # 10) (1 # 2) _ eq_refl) as [H _].
  split; [exact H | reflexivity].
Defined.

Lemma floor_draw (r : Q) (k : Z) :
  (0 <= r)%Q -> (r < 1)%Q -> 0 < k ->
  0 <= Qfloor (r * inject_Z k) <= k - 1.
Proof.
  intros H0 H1 Hk.
  assert (Hkq : (0 < inject_Z k)%Q).
  { change 0%Q with (inject_Z 0). now rewrite <- Zlt_Qlt. }
  split.
  - change 0 with (Qfloor 0). apply Qfloor_resp_le. nra.
  - assert (H : (inject_Z (Qfloor (r * inject_Z k)) < inject_Z k)%Q).
    { eapply Qle_lt_trans; [apply Qfloor_le |]. nra. }
    rewrite <- Zlt_Qlt in H. lia.
Qed.

(** The ranges the comments of [generateThreatAlert] give for the draw
    of each severity. *)
Lemma baseRiskScore_range (severity : jsstring) (r : Q) :
  (0 <= r)%Q -> (r < 1)%Q ->
  let b := baseRiskScore severity r in
  if severity === SEVERITY.CRITICAL then 90 <= b <= 99
  else if severity === SEVERITY.HIGH then 70 <= b <= 89
  else if severity === SEVERITY.MEDIUM then 40 <= b <= 69
  else if severity === SEVERITY.LOW then 10 <= b <= 39
  else 5 <= b <= 19.
Proof.
  intros H0 H1. unfold baseRiskScore.
  pose proof (floor_draw r 10 H0 H1 eq_refl) as H10.
  pose proof (floor_draw r 20 H0 H1 eq_refl) as H20.
  pose proof (floor_draw r 30 H0 H1 eq_refl) as H30.
  pose proof (floor_draw r 15 H0 H1 eq_refl) as H15.
  change (inject_Z 10) with 10%Q in H10. change (inject_Z 20) with 20%Q in H20.
  change (inject_Z 30) with 30%Q in H30. change (inject_Z 15) with 15%Q in H15.
  cbv zeta.
  destruct (severity === SEVERITY.CRITICAL); [lia |].
  destruct (severity === SEVERITY.HIGH); [lia |].
  destruct (severity === SEVERITY.MEDIUM); [lia |].
  destruct (severity === SEVERITY.LOW); lia.
Qed.

(** X8.  With a confidence within [0, 1] and a draw in [0, 1), the risk
    score of [generateThreatAlert] lies in a band set by the severity:
    [90, 99] for critical, [70, 99] for high, [40, 79] for medium,
    [10, 49] for low and [5, 29] for any other severity. *)
Theorem riskScore_bands (device : Device) (threatData : ThreatData)
    (now : time) (r c : Q) :
  td_confidence threatData = Some c ->
  (0 <= c)%Q -> (c <= 1)%Q -> (0 <= r)%Q -> (r < 1)%Q ->
  exists x,
    riskScore (generateThreatAlert device threatData now r) = Some x
    /\ if td_severity threatData === SEVERITY.CRITICAL then (90 <= x <= 99)%Q
       else if td_severity threatData === SEVERITY.HIGH then (70 <= x <= 99)%Q
       else if td_severity threatData === SEVERITY.MEDIUM then (40 <= x <= 79)%Q
       else if td_severity threatData === SEVERITY.LOW then (10 <= x <= 49)%Q
       else (5 <= x <= 29)%Q.
Proof.
  intros Hc Hc0 Hc1 Hr0 Hr1.
  unfold generateThreatAlert. cbn [riskScore]. rewrite Hc. cbn [adjustRiskScore].
  eexists. split; [reflexivity |].
  pose proof (baseRiskScore_range (td_severity threatData) r Hr0 Hr1) as Hb.
  cbv zeta in Hb.
  set (b := baseRiskScore (td_severity threatData) r) in *.
  assert (Hmin : forall lo hi : Z,
             lo <= 99 -> lo <= b <= hi ->
             (inject_Z lo <= Qmin 99 (inject_Z b + c * 10)
              /\ Qmin 99 (inject_Z b + c * 10) <= Qmin 99 (inject_Z hi + 10))%Q).
  { intros lo hi Hlo99 [Hlo Hhi].
    rewrite Zle_Qle in Hlo, Hhi, Hlo99. change (inject_Z 99) with 99%Q in Hlo99.
    split.
    - apply Q.min_glb; lra.
    - apply Q.min_le_compat_l. lra. }
  destruct (td_severity threatData === SEVERITY.CRITICAL).
  { destruct (Hmin 90 99 ltac:(lia) Hb) as [H1 H2]. split; [exact H1 |]. apply Q.le_min_l. }
  destruct (td_severity threatData === SEVERITY.HIGH).
  { destruct (Hmin 70 89 ltac:(lia) Hb) as [H1 H2]. split; [exact H1 |]. apply Q.le_min_l. }
  destruct (td_severity threatData === SEVERITY.MEDIUM).
  { destruct (Hmin 40 69 ltac:(lia) Hb) as [H1 H2]. split; [exact H1 |].
    eapply Qle_trans; [exact H2 |]. vm_compute. discriminate. }
  destruct (td_severity threatData === SEVERITY.LOW).
  { destruct (Hmin 10 39 ltac:(lia) Hb) as [H1 H2]. split; [exact H1 |].
    eapply Qle_trans; [exact H2 |]. vm_compute. discriminate. }
  destruct (Hmin 5 19 ltac:(lia) Hb) as [H1 H2]. split; [exact H1 |].
  eapply Qle_trans; [exact H2 |]. vm_compute. discriminate.
Qed.

Lemma riskScore_bands_witness :
  exists x,
    riskScore (generateThreatAlert sampleCamera
                 {| td_threatType := None; td_severity := Some "low";
                    td_confidence := Some (7 # 10) |}
                 0 (999 # 1000)) = Some x
    /\ (10 <= x <= 49)%Q.
Proof.
  apply (riskScore_bands sampleCamera
           {| td_threatType := None; td_severity := Some "low";
              td_confidence := Some (7 # 10) |} 0 (999 # 1000) (7 # 10)).
  - reflexivity.
  - vm_compute. discriminate.
  - vm_compute. discriminate.
  - vm_compute. discriminate.
  - vm_compute. reflexivity.
Defined.

(** X9.  [analyzeDeviceBehavior] reports either no pattern or two, and
    any pattern implies the anomaly flag; the flag itself is set exactly
    above 0.7, also without a pattern. *)
Theorem analyzeDeviceBehavior_patterns (device : Device) (now : time) (score : Q) :
  let b := analyzeDeviceBehavior device now score in
  (List.length (patterns b) = 0%nat \/ List.length (patterns b) = 2%nat)
  /\ (patterns b <> [] -> isAnomaly b = true)
  /\ (isAnomaly b = true <-> (7 # 10 < score)%Q).
Proof.
  unfold analyzeDeviceBehavior. cbn [patterns isAnomaly].
  split; [| split].
  - destruct ((device_type device === "camera") && Qgtb score (7 # 10)); [now right |].
    destruct ((device_type device === "trafficLight") && Qgtb score (8 # 10));
      [now right |].
    destruct ((device_type device === "waterSensor") && Qgtb score (75 # 100));
      [now right |].
    destruct (Qgtb score (9 # 10)); [now right | now left].
  - destruct (Qgtb score (7 # 10)) eqn:E7; [reflexivity |].
    apply Qgtb_false in E7. rewrite andb_false_r.
    destruct (Qgtb score (8 # 10)) eqn:E8; [apply Qgtb_true in E8; lra |].
    destruct (Qgtb score (75 # 100)) eqn:E75; [apply Qgtb_true in E75; lra |].
    destruct (Qgtb score (9 # 10)) eqn:E9; [apply Qgtb_true in E9; lra |].
    rewrite !andb_false_r. intros H. now contradiction H.
  - apply Qgtb_true.
Qed.

(** ** Countermeasures *)

Lemma successProbability_range (threat : ThreatAlert) :
  (35 # 100 <= successProbability threat)%Q
  /\ (successProbability threat <= 9 # 10)%Q.
Proof.
  unfold successProbability. cbv zeta.
  destruct (a_severity threat === SEVERITY.CRITICAL);
    [| destruct (a_severity threat === SEVERITY.HIGH);
       [| destruct (a_severity threat === SEVERITY.MEDIUM)]];
    (destruct (a_threatType threat === THREAT_TYPES.FIRMWARE_TAMPERING);
     [| destruct (a_threatType threat === THREAT_TYPES.RANSOMWARE)]);
    split; vm_compute; discriminate.
Qed.

(** X10.  The success probability of [deployCountermeasures] stays within
    [0.35, 0.9] for every threat: a draw below 0.35 always succeeds and a
    draw of 0.9 or more always fails; the device is reported safe exactly
    when the threat is reported resolved, and that is the successful
    case. *)
Theorem deployCountermeasures_outcome (device : Device) (threat : ThreatAlert)
    (now : time) (r1 r2 r3 : Q) :
  let res := deployCountermeasures device threat now r1 r2 r3 in
  ((r1 < 35 # 100)%Q -> isSuccessful res = true)
  /\ ((9 # 10 <= r1)%Q -> isSuccessful res = false)
  /\ (isSuccessful res = true <->
      newDeviceStatus res = "safe" /\ newThreatStatus res = "resolved")
  /\ (isSuccessful res = false <->
      newDeviceStatus res = "compromised" /\ newThreatStatus res = "mitigating").
Proof.
  destruct (successProbability_range threat) as [Hlo Hhi].
  unfold deployCountermeasures. cbn [isSuccessful newDeviceStatus newThreatStatus].
  split; [| split; [| split]].
  - intros H. apply negb_true_iff.
    destruct (Qle_bool (successProbability threat) r1) eqn:E; [| reflexivity].
    apply Qle_bool_iff in E. lra.
  - intros H. apply negb_false_iff. apply Qle_bool_iff. lra.
  - destruct (negb (Qle_bool (successProbability threat) r1)); split; intros H;
      try reflexivity; try (split; reflexivity); try discriminate;
      destruct H as [H _]; discriminate.
  - destruct (negb (Qle_bool (successProbability threat) r1)); split; intros H;
      try reflexivity; try (split; reflexivity); try discriminate;
      destruct H as [H _]; discriminate.
Qed.

Lemma Qfloor_between (x : Q) (lo hi : Z) :
  (inject_Z lo <= x)%Q -> (x < inject_Z (hi + 1))%Q -> lo <= Qfloor x <= hi.
Proof.
  intros Hlo Hhi. split.
  - rewrite <- (Qfloor_Z lo). now apply Qfloor_resp_le.
  - assert (H : (inject_Z (Qfloor x) < inject_Z (hi + 1))%Q).
    { eapply Qle_lt_trans; [apply Qfloor_le | exact Hhi]. }
    rewrite <- Zlt_Qlt in H. lia.
Qed.

(** X11.  For draws in [0, 1) the response time of
    [deployCountermeasures] lies within [10000, 119999] milliseconds, and
    the actions taken are the first two, three or four recommended
    actions of the threat, or all of them when there are fewer. *)
Theorem deployCountermeasures_bounds (device : Device) (threat : ThreatAlert)
    (now : time) (r1 r2 r3 : Q) :
  (0 <= r2)%Q -> (r2 < 1)%Q -> (0 <= r3)%Q -> (r3 < 1)%Q ->
  let res := deployCountermeasures device threat now r1 r2 r3 in
  10000 <= responseTimeMs res <= 119999
  /\ exists n,
       (2 <= n <= 4)%nat
       /\ actionsTaken res = firstn n (a_recommendedActions threat)
       /\ List.length (actionsTaken res)
          = Nat.min n (List.length (a_recommendedActions threat)).
Proof.
  intros H20 H21 H30 H31. unfold deployCountermeasures.
  cbn [responseTimeMs actionsTaken]. split.
  - apply Qfloor_between.
    + change (inject_Z (120000 - 10000)) with 110000%Q.
      change (inject_Z 10000) with 10000%Q. lra.
    + change (inject_Z (120000 - 10000)) with 110000%Q.
      change (inject_Z (119999 + 1)) with 120000%Q. lra.
  - pose proof (floor_draw r3 3 H30 H31 eq_refl) as H3.
    change (inject_Z 3) with 3%Q in H3.
    exists (Z.to_nat (Qfloor (r3 * 3) + 2)).
    split; [lia |]. split; [reflexivity | apply length_firstn].
Qed.

Lemma deployCountermeasures_bounds_witness :
  10000 <= responseTimeMs
             (deployCountermeasures sampleCamera sampleAlert 0 (1 # 2) (999 # 1000)
                                    (999 # 1000))
        <= 119999
  /\ List.length (actionsTaken
                    (deployCountermeasures sampleCamera sampleAlert 0 (1 # 2)
                                           (999 # 1000) (999 # 1000))) = 4%nat.
Proof.
  destruct (deployCountermeasures_bounds sampleCamera sampleAlert 0 (1 # 2)
              (999 # 1000) (999 # 1000)) as [H _];
    try (vm_compute; congruence).
  split; [exact H | reflexivity].
Defined.

(** ** Teams *)

Lemma determineResponseTeams_check (threatType severity : jsstring) :
  let teams := determineResponseTeams threatType severity in
  distinct teams
  && (List.length teams <=? 5)%nat
  && (includes teams RESPONSE_TEAMS.TIER2 || negb (includes teams RESPONSE_TEAMS.TIER3))
  && Bool.eqb (includes teams RESPONSE_TEAMS.MANAGEMENT)
              (severity === SEVERITY.CRITICAL)
  && negb (includes teams RESPONSE_TEAMS.FORENSICS
           && includes teams RESPONSE_TEAMS.PHYSICAL) = true.
Proof.
  unfold determineResponseTeams.
  destruct threatType as [t |].
  - destruct (String.eqb_spec t THREAT_TYPES.PHYSICAL_TAMPERING) as [-> | Hne].
    + unfold SEVERITY.CRITICAL, SEVERITY.HIGH, SEVERITY.MEDIUM.
      cbv zeta.
      destruct (severity === "medium"), (severity === "high"),
        (severity === "critical"); vm_compute; reflexivity.
    + apply String.eqb_neq in Hne.
      assert (Hp : (Some t === THREAT_TYPES.PHYSICAL_TAMPERING) = false) by exact Hne.
      rewrite Hp.
      unfold SEVERITY.CRITICAL, SEVERITY.HIGH, SEVERITY.MEDIUM,
        THREAT_TYPES.UNAUTHORIZED_ACCESS, THREAT_TYPES.DATA_MANIPULATION,
        THREAT_TYPES.MALWARE, THREAT_TYPES.RANSOMWARE.
      split_conditions; vm_compute; reflexivity.
  - unfold SEVERITY.CRITICAL, SEVERITY.HIGH, SEVERITY.MEDIUM.
    cbv zeta.
    destruct (severity === "medium"), (severity === "high"),
      (severity === "critical"); vm_compute; reflexivity.
Qed.

Lemma includes_In (xs : list string) (x : string) :
  includes xs x = true <-> In x xs.
Proof.
  unfold includes. rewrite existsb_exists. split.
  - intros [y [Hin Heq]]. apply String.eqb_eq in Heq. now subst.
  - intros Hin. exists x. split; [exact Hin | apply String.eqb_refl].
Qed.

(** X12.  [determineResponseTeams] always puts Tier 1 first, names no
    team twice and at most five teams; Tier 3 comes only together with
    Tier 2, the crisis management team exactly for a critical severity,
    and the forensics and physical security teams never together. *)
Theorem determineResponseTeams_teams (threatType severity : jsstring) :
  let teams := determineResponseTeams threatType severity in
  hd_error teams = Some RESPONSE_TEAMS.TIER1
  /\ NoDup teams
  /\ (List.length teams <= 5)%nat
  /\ (In RESPONSE_TEAMS.TIER3 teams -> In RESPONSE_TEAMS.TIER2 teams)
  /\ (In RESPONSE_TEAMS.MANAGEMENT teams <-> (severity === SEVERITY.CRITICAL) = true)
  /\ ~ (In RESPONSE_TEAMS.FORENSICS teams /\ In RESPONSE_TEAMS.PHYSICAL teams).
Proof.
  pose proof (determineResponseTeams_check threatType severity) as H.
  cbv zeta in *.
  assert (Hhd : hd_error (determineResponseTeams threatType severity)
                = Some RESPONSE_TEAMS.TIER1) by reflexivity.
  set (teams := determineResponseTeams threatType severity) in *.
  clearbody teams.
  apply andb_true_iff in H. destruct H as [H Hfp].
  apply andb_true_iff in H. destruct H as [H Hm].
  apply andb_true_iff in H. destruct H as [H H32].
  apply andb_true_iff in H. destruct H as [Hd Hl].
  split; [exact Hhd |].
  split; [now apply distinct_NoDup |].
  split; [now apply Nat.leb_le |].
  split; [| split].
  - intros H3. apply includes_In. apply includes_In in H3.
    rewrite H3 in H32. simpl in H32. now rewrite orb_false_r in H32.
  - rewrite <- includes_In. apply Bool.eqb_prop in Hm. now rewrite Hm.
  - intros [Hf Hp]. apply includes_In in Hf, Hp.
    rewrite Hf, Hp in Hfp. discriminate.
Qed.

(** ** The state machine, continued *)

(** [startResponse] on a plan that has its steps and notes: the steps
    and the properties it copies. *)
Lemma startResponse_steps (plan : ResponsePlan) (now : time)
    (ss : list Step) (ns : list Note) :
  responseSteps plan = Some ss ->
  notes plan = Some ns ->
  exists plan',
    startResponse plan now = Ok plan'
    /\ responseSteps plan'
       = Some (map (fun step =>
                      if Phase_eqb (step_phase step) IDENTIFICATION
                      then set_step_startTime now (set_step_status IN_PROGRESS step)
                      else step) ss)
    /\ incidentId plan' = incidentId plan
    /\ threatType plan' = threatType plan
    /\ severity plan' = severity plan.
Proof.
  intros Hss Hns. unfold startResponse, forEachStep. simpl. rewrite Hss. simpl.
  unfold pushNote. simpl. rewrite Hns.
  eexists. split; [reflexivity |]. simpl. auto.
Qed.

Lemma simulateResponseProgress_copies (plan plan' : ResponsePlan) (p : Q)
    (now : time) :
  simulateResponseProgress plan p now = Ok plan' ->
  incidentId plan' = incidentId plan
  /\ threatType plan' = threatType plan
  /\ severity plan' = severity plan
  /\ startTime plan' = startTime plan.
Proof.
  unfold simulateResponseProgress.
  destruct (startTime plan) as [t0 |] eqn:Hst; [| intros [= <-]; auto].
  destruct (Status_eqb (status plan) COMPLETED); [intros [= <-]; auto |].
  unfold forEachStep. simpl.
  destruct (responseSteps plan); simpl; [| discriminate].
  destruct (Qle_bool 100 p); unfold pushNote; simpl;
    (destruct (notes plan); [| discriminate]); intros [= <-]; simpl; auto.
Qed.

Lemma progressedEntry_stamped (now : time) (p : Q) (idx : Z) (ph : Phase)
    (e : PhaseEntry) :
  stampsFit (phase_status e) (phase_startTime e) (phase_endTime e) ->
  let e' := progressedEntry now p idx ph e in
  stampsFit (phase_status e') (phase_startTime e') (phase_endTime e').
Proof.
  destruct e as [d a f st]. unfold progressedEntry, stampPhaseEnd, stampPhaseStart.
  simpl. intros H.
  destruct (phaseIndex ph <=? idx); [| exact H].
  destruct ((phaseIndex ph =? idx) && below100 p); destruct a, f; simpl;
    try split; discriminate.
Qed.

Lemma progressStep_stamped (now : time) (p : Q) (idx : Z) (s : Step) :
  stampsFit (step_status s) (step_startTime s) (step_endTime s) ->
  let s' := progressStep now p idx s in
  stampsFit (step_status s') (step_startTime s') (step_endTime s').
Proof.
  destruct s as [i d ph tm st du a f].
  unfold progressStep, stampStepEnd, stampStepStart. simpl. intros H.
  destruct (phaseIndex ph <? idx);
    [destruct a, f; simpl; try split; discriminate |].
  destruct (phaseIndex ph =? idx); [| exact H].
  destruct (Qeq_bool p 100); destruct a, f; simpl; try split; discriminate.
Qed.

Lemma apply_keeps_stamped (op : Operation) (plan plan' : ResponsePlan) (now : time) :
  apply op plan now = Ok plan' -> stamped plan -> stamped plan'.
Proof.
  intros H [Hph Hst].
  destruct op as [| p | newPhase extra]; simpl in H.
  - destruct (startResponse_inv _ _ _ H) as [ss [ns [Hss Hns]]].
    destruct (startResponse_ok plan now ss ns Hss Hns)
      as [q [ss' [Hq [_ [_ [_ [_ [_ He]]]]]]]].
    destruct (startResponse_steps plan now ss ns Hss Hns) as [q' [Hq' [Hs' _]]].
    rewrite Hq in Hq'. injection Hq' as <-.
    rewrite Hq in H. injection H as <-.
    split.
    + intros ph. cbv zeta. rewrite He. specialize (Hph ph). cbv zeta in Hph.
      destruct (Phase_eqb ph IDENTIFICATION); [simpl; discriminate | exact Hph].
    + intros l s Hl Hin. rewrite Hs' in Hl. injection Hl as <-.
      apply in_map_iff in Hin. destruct Hin as [y [<- Hy]].
      specialize (Hst ss y Hss Hy).
      destruct (Phase_eqb (step_phase y) IDENTIFICATION);
        [simpl; discriminate | exact Hst].
  - destruct (simulateResponseProgress_inv _ _ _ _ H)
      as [-> | [t0 [ss [ns [Hst0 [Hs [Hss Hns]]]]]]]; [now split |].
    destruct (simulateResponseProgress_active plan p now t0 ss ns Hst0 Hs Hss Hns)
      as [q [n [Hq [He [Hs' _]]]]].
    rewrite Hq in H. injection H as <-.
    split.
    + intros ph. cbv zeta. rewrite He. apply progressedEntry_stamped, Hph.
    + intros l s Hl Hin. rewrite Hs' in Hl. injection Hl as <-.
      apply in_map_iff in Hin. destruct Hin as [y [<- Hy]].
      apply progressStep_stamped. now apply (Hst ss).
  - destruct (updateResponsePhase_inv _ _ _ _ _ H) as [Htl [Hss _]].
    split.
    + intros ph. rewrite Htl. apply Hph.
    + intros l s Hl. rewrite Hss in Hl. now apply Hst.
Qed.

(** X13.  Status and time stamps stay consistent: over every sequence of
    [startResponse], [simulateResponseProgress] and [updateResponsePhase]
    calls that returns, every completed phase and step has a start and an
    end time and every phase and step in progress has a start time,
    provided this held at the start (as it does for a timeline and steps
    that are all pending). *)
Theorem stamps_follow_status (ops : list (Operation * time))
    (plan plan' : ResponsePlan) :
  run plan ops = Ok plan' -> stamped plan -> stamped plan'.
Proof.
  revert plan. induction ops as [| [op now] ops IH]; intros plan; simpl.
  - intros [= <-]. auto.
  - destruct (apply op plan now) as [mid | e] eqn:Hop; simpl; [| discriminate].
    intros Hrun Hs. apply (IH mid Hrun).
    now apply (apply_keeps_stamped op plan mid now).
Qed.

Lemma stamps_follow_status_witness :
  run samplePlan ((OpStartResponse, 1000) :: (OpSimulateProgress 50, 2000)
                  :: laterOperations) = Ok finishedPlan
  /\ stamped samplePlan
  /\ stamped finishedPlan.
Proof.
  assert (H1 : run samplePlan ((OpStartResponse, 1000)
                               :: (OpSimulateProgress 50, 2000)
                               :: laterOperations) = Ok finishedPlan)
    by (vm_compute; reflexivity).
  assert (H2 : stamped samplePlan).
  { split.
    - intros ph; destruct ph; exact I.
    - intros ss s Hss Hin. vm_compute in Hss. injection Hss as <-.
      simpl in Hin.
      repeat (destruct Hin as [<- | Hin]; [exact I |]). destruct Hin. }
  split; [exact H1 |]. split; [exact H2 |].
  exact (stamps_follow_status _ samplePlan finishedPlan H1 H2).
Defined.

Lemma progressStep_phase (now : time) (p : Q) (idx : Z) (s : Step) :
  step_phase (progressStep now p idx s) = step_phase s.
Proof.
  destruct s as [i d ph tm st du a f].
  unfold progressStep, stampStepEnd, stampStepStart. simpl.
  destruct (phaseIndex ph <? idx); [destruct a, f; reflexivity |].
  destruct (phaseIndex ph =? idx); [| reflexivity].
  destruct (Qeq_bool p 100); destruct a, f; reflexivity.
Qed.

Lemma progressStep_above_100 (now : time) (p : Q) (s : Step) :
  (100 < p)%Q ->
  step_status (progressStep now p 4 s)
  = if Phase_eqb (step_phase s) LESSONS_LEARNED then IN_PROGRESS else COMPLETED.
Proof.
  intros Hp.
  assert (Hq : Qeq_bool p 100 = false).
  { destruct (Qeq_bool p 100) eqn:E; [| reflexivity].
    apply Qeq_bool_iff in E. lra. }
  destruct s as [i d ph tm st du a f].
  unfold progressStep, stampStepEnd, stampStepStart. simpl. rewrite Hq.
  destruct ph; destruct a, f; reflexivity.
Qed.

(** X14.  A percentage above 100 completes the plan and every phase but
    leaves the steps of the lessons-learned phase in progress: the phases
    test [< 100], the plan [>= 100] and the steps [=== 100].  Since a
    completed plan is returned unchanged by every later call, those steps
    are never completed. *)
Theorem progress_above_100 (plan : ResponsePlan) (p : Q) (now : time)
    (t0 : time) (ss : list Step) (ns : list Note) :
  startTime plan = Some t0 ->
  status plan <> COMPLETED ->
  responseSteps plan = Some ss ->
  notes plan = Some ns ->
  (100 < p)%Q ->
  exists plan' ss',
    simulateResponseProgress plan p now = Ok plan'
    /\ status plan' = COMPLETED
    /\ (forall ph, phase_status (entry (timeline plan') ph) = COMPLETED)
    /\ responseSteps plan' = Some ss'
    /\ List.length ss' = List.length ss
    /\ (forall s, In s ss' ->
          step_status s
          = if Phase_eqb (step_phase s) LESSONS_LEARNED
            then IN_PROGRESS else COMPLETED)
    /\ (forall q now', simulateResponseProgress plan' q now' = Ok plan').
Proof.
  intros Hst Hs Hss Hns Hp.
  destruct (simulateResponseProgress_active plan p now t0 ss ns Hst Hs Hss Hns)
    as [plan' [n [Hrun [He [Hss' [Hstatus _]]]]]].
  assert (Hge : (100 <= p)%Q) by lra.
  rewrite (currentPhaseIndexOf_100 p Hge) in He, Hss'.
  rewrite (proj2 (Qle_bool_iff 100 p) Hge) in Hstatus.
  exists plan'. eexists. split; [exact Hrun |]. split; [exact Hstatus |].
  split; [| split; [exact Hss' | split; [apply length_map | split]]].
  - intros ph. rewrite He. pose proof (phaseIndex_range ph).
    apply progressedEntry_completed; [lia |].
    right. now apply below100_false.
  - intros s Hin. apply in_map_iff in Hin. destruct Hin as [y [<- _]].
    rewrite progressStep_phase. now apply progressStep_above_100.
  - intros q now'. apply simulateResponseProgress_noop. now right.
Qed.

Lemma progress_above_100_witness :
  exists plan' ss',
    simulateResponseProgress sampleStarted 150 5000 = Ok plan'
    /\ status plan' = COMPLETED
    /\ responseSteps plan' = Some ss'
    /\ exists s, In s ss' /\ step_status s = IN_PROGRESS.
Proof.
  destruct (progress_above_100 sampleStarted 150 5000 1000
              (match responseSteps sampleStarted with Some l => l | None => [] end)
              (match notes sampleStarted with Some l => l | None => [] end))
    as [plan' [ss' [H1 [H2 [_ [H3 [_ [H4 _]]]]]]]];
    try (vm_compute; congruence).
  exists plan', ss'. split; [exact H1 |]. split; [exact H2 |]. split; [exact H3 |].
  vm_compute in H1. injection H1 as <-. vm_compute in H3. injection H3 as <-.
  eexists. split; [do 6 right; left; reflexivity | reflexivity].
Defined.

Lemma currentPhaseIndexOf_negative (p : Q) :
  (p < 0)%Q -> currentPhaseIndexOf p < 0.
Proof.
  intros H. unfold currentPhaseIndexOf.
  assert (Hf : Qfloor (p / 100 * 5) < 0).
  { assert (Hq : (inject_Z (Qfloor (p / 100 * 5)) < inject_Z 0)%Q).
    { eapply Qle_lt_trans; [apply Qfloor_le |].
      rewrite phase_fraction. change (inject_Z 0) with 0%Q. lra. }
    now rewrite <- Zlt_Qlt in Hq. }
  destruct (Z.geb_spec (Qfloor (p / 100 * 5)) 5); lia.
Qed.

Lemma map_unchanged {A : Type} (f : A -> A) (xs : list A) :
  (forall x, f x = x) -> map f xs = xs.
Proof.
  intros H. induction xs as [| x xs IH]; simpl; [reflexivity |].
  now rewrite H, IH.
Qed.

(** X15.  A negative percentage changes neither the timeline nor the
    steps nor the status of a started plan: the call only records that no
    phase is current and appends a progress note. *)
Theorem progress_negative (plan : ResponsePlan) (p : Q) (now : time)
    (t0 : time) (ss : list Step) (ns : list Note) :
  startTime plan = Some t0 ->
  status plan <> COMPLETED ->
  responseSteps plan = Some ss ->
  notes plan = Some ns ->
  (p < 0)%Q ->
  exists plan',
    simulateResponseProgress plan p now = Ok plan'
    /\ (forall ph, entry (timeline plan') ph = entry (timeline plan) ph)
    /\ responseSteps plan' = Some ss
    /\ status plan' = status plan
    /\ currentPhase plan' = None
    /\ notes plan' = Some (ns ++ [systemNote now (ProgressAt p None)])%list.
Proof.
  intros Hst Hs Hss Hns Hp.
  pose proof (currentPhaseIndexOf_negative p Hp) as Hidx.
  unfold simulateResponseProgress. rewrite Hst.
  destruct (Status_eqb (status plan) COMPLETED) eqn:E;
    [apply Status_eqb_eq in E; contradiction |].
  unfold forEachStep. simpl. rewrite Hss. simpl.
  assert (Hq : Qle_bool 100 p = false).
  { destruct (Qle_bool 100 p) eqn:Eq; [| reflexivity].
    apply Qle_bool_iff in Eq. lra. }
  rewrite Hq. unfold pushNote. simpl. rewrite Hns.
  destruct (Z.ltb_spec (currentPhaseIndexOf p) 0); [| lia].
  eexists. split; [reflexivity |]. simpl.
  replace (Z.to_nat (currentPhaseIndexOf p + 1)) with 0%nat by lia. simpl.
  split; [reflexivity |]. split; [| auto].
  f_equal. apply map_unchanged. intros s. unfold progressStep.
  pose proof (phaseIndex_range (step_phase s)).
  destruct (Z.ltb_spec (phaseIndex (step_phase s)) (currentPhaseIndexOf p)); [lia |].
  destruct (Z.eqb_spec (phaseIndex (step_phase s)) (currentPhaseIndexOf p)); [lia |].
  reflexivity.
Qed.

Lemma progress_negative_witness :
  exists plan',
    simulateResponseProgress sampleStarted (-10) 5000 = Ok plan'
    /\ responseSteps plan' = responseSteps sampleStarted
    /\ status plan' = IN_PROGRESS.
Proof.
  destruct (progress_negative sampleStarted (-10) 5000 1000
              (match responseSteps sampleStarted with Some l => l | None => [] end)
              (match notes sampleStarted with Some l => l | None => [] end))
    as [plan' [H1 [_ [H2 [H3 _]]]]];
    try (vm_compute; congruence).
  exists plan'. split; [exact H1 |]. split; [exact H2 | exact H3].
Defined.

(** ** Reports, continued *)

Lemma all_completed_filter (ss : list Step) :
  (forall s, In s ss -> step_status s = COMPLETED) ->
  filter isCompleted ss = ss.
Proof.
  induction ss as [| s ss IH]; intros H; simpl; [reflexivity |].
  unfold isCompleted at 1. rewrite (H s (or_introl eq_refl)). simpl.
  f_equal. apply IH. intros x Hx. apply H. now right.
Qed.

(** X16.  The round trip on a plan that has its steps and notes:
    [startResponse] at [t1], [simulateResponseProgress(plan, 100)] at
    [t2] and [generateResponseReport] give a completed report with the
    incident identifier of the plan, all steps counted as completed, the
    start time [t1], the completion time [t2] and the rounded minutes
    between them. *)
Theorem started_progressed_reported (plan : ResponsePlan) (t1 t2 : time)
    (ss : list Step) (ns : list Note) :
  responseSteps plan = Some ss ->
  notes plan = Some ns ->
  exists started finished r,
    startResponse plan t1 = Ok started
    /\ simulateResponseProgress started 100 t2 = Ok finished
    /\ generateResponseReport finished = Ok (Completed r)
    /\ r_incidentId r = incidentId plan
    /\ stepsCompleted r = List.length ss
    /\ totalSteps r = List.length ss
    /\ r_startTime r = Some t1
    /\ completionTime r = Some t2
    /\ totalResponseTimeMinutes r = Some (minutesBetween t1 t2).
Proof.
  intros Hss Hns.
  destruct (startResponse_ok plan t1 ss ns Hss Hns)
    as [started [ss1 [Hstart [Hstatus [Hst [Hss1 [Hns1 _]]]]]]].
  destruct (startResponse_steps plan t1 ss ns Hss Hns)
    as [started' [Hstart' [Hsteps [Hid _]]]].
  rewrite Hstart in Hstart'. injection Hstart' as <-.
  assert (Hlen1 : List.length ss1 = List.length ss).
  { rewrite Hss1 in Hsteps. injection Hsteps as ->. apply length_map. }
  assert (Hnc : status started <> COMPLETED) by (rewrite Hstatus; discriminate).
  destruct (simulateResponseProgress_active started 100 t2 t1 ss1 _ Hst Hnc Hss1 Hns1)
    as [finished [n [Hrun [_ [Hss2 [Hstatus2 [Hst2 _]]]]]]].
  destruct (simulateResponseProgress_copies _ _ _ _ Hrun) as [Hid2 _].
  assert (Hact : actualCompletionTime finished = Some t2).
  { revert Hrun. unfold simulateResponseProgress. rewrite Hst.
    destruct (Status_eqb (status started) COMPLETED) eqn:E;
      [apply Status_eqb_eq in E; contradiction |].
    unfold forEachStep. simpl. rewrite Hss1. simpl.
    unfold pushNote. simpl. rewrite Hns1. intros [= <-]. reflexivity. }
  change (Qle_bool 100 100) with true in Hstatus2.
  change (currentPhaseIndexOf 100) with 4 in Hss2.
  exists started, finished. eexists.
  split; [exact Hstart |]. split; [exact Hrun |].
  unfold generateResponseReport, stepsOf.
  rewrite Hstatus2, Hss2, Hst2, Hact. simpl.
  split; [reflexivity |]. simpl.
  rewrite all_completed_filter.
  - rewrite length_map, Hlen1, Hid2, Hid. repeat split.
  - intros s Hin. apply in_map_iff in Hin. destruct Hin as [y [<- _]].
    apply progressStep_at_100. reflexivity.
Qed.

Lemma started_progressed_reported_witness :
  exists started finished r,
    startResponse samplePlan 1000 = Ok started
    /\ simulateResponseProgress started 100 121000 = Ok finished
    /\ generateResponseReport finished = Ok (Completed r)
    /\ r_incidentId r = Some "INC-LOYW3V28"
    /\ stepsCompleted r = 7%nat
    /\ totalResponseTimeMinutes r = Some 2.
Proof.
  destruct (started_progressed_reported samplePlan 1000 121000
              (match responseSteps samplePlan with Some l => l | None => [] end)
              (match notes samplePlan with Some l => l | None => [] end))
    as [started [finished [r [H1 [H2 [H3 [H4 [H5 [_ [_ [_ H6]]]]]]]]]]].
  { vm_compute. reflexivity. }
  { vm_compute. reflexivity. }
  exists started, finished, r.
  split; [exact H1 |]. split; [exact H2 |]. split; [exact H3 |].
  split; [exact H4 |]. split; [exact H5 | exact H6].
Defined.

(** X17.  The completion percentage at its edges: a pending plan gives 0
    and a completed plan 100 without looking at the steps; a plan in
    progress (or failed) with an empty list of steps gives NaN, the
    quotient 0 / 0, and without a list of steps the call throws. *)
Theorem calculateCompletionPercentage_edges (plan : ResponsePlan) :
  (status plan = PENDING -> calculateCompletionPercentage plan = Ok 0%float)
  /\ (status plan = COMPLETED -> calculateCompletionPercentage plan = Ok 100%float)
  /\ (status plan = IN_PROGRESS \/ status plan = FAILED ->
      responseSteps plan = Some [] ->
      exists pct,
        calculateCompletionPercentage plan = Ok pct
        /\ JsNumber.isNaN pct = true
        /\ generateResponseReport plan
           = Ok (Incomplete (incidentId plan)
                            "Cannot generate report for incomplete response" pct))
  /\ (status plan = IN_PROGRESS \/ status plan = FAILED ->
      responseSteps plan = None ->
      exists e, calculateCompletionPercentage plan = Throw e
                /\ generateResponseReport plan = Throw e).
Proof.
  unfold generateResponseReport, calculateCompletionPercentage, stepsOf.
  split; [intros ->; reflexivity |].
  split; [intros ->; reflexivity |].
  split.
  - intros [-> | ->] ->; simpl; eexists; (split; [reflexivity |]);
      (split; [vm_compute; reflexivity | reflexivity]).
  - intros [-> | ->] ->; simpl; eexists; split; reflexivity.
Qed.

(** ** Notes and status *)

Lemma updateResponsePhase_notes (plan plan' : ResponsePlan) (newPhase : jsstring)
    (extra : option string) (now : time) (ns : list Note) :
  updateResponsePhase plan newPhase extra now = Ok plan' ->
  notes plan = Some ns ->
  exists added,
    notes plan' = Some (ns ++ added)%list /\ (1 <= List.length added <= 2)%nat.
Proof.
  unfold updateResponsePhase, pushNote. intros H Hns. revert H.
  destruct (newPhase === phaseName LESSONS_LEARNED); simpl; rewrite Hns; simpl;
    (destruct extra as [s |]; [destruct (String.eqb s "") |]); simpl;
    intros [= <-]; simpl;
    try (eexists; split; [rewrite <- app_assoc; reflexivity | simpl; lia]);
    (exists [systemNote now (PhaseUpdatedTo newPhase)]; split;
     [reflexivity | simpl; lia]).
Qed.

Lemma mutate_appends (m : Mutation) (plan plan' : ResponsePlan) (now : time)
    (ns : list Note) :
  mutate m plan now = Ok plan' ->
  notes plan = Some ns ->
  exists added,
    notes plan' = Some (ns ++ added)%list /\ (List.length added <= 2)%nat.
Proof.
  intros H Hns. destruct m as [[| p | newPhase extra] | author content]; simpl in H.
  - destruct (startResponse_inv _ _ _ H) as [ss [ns' [Hss Hns']]].
    rewrite Hns in Hns'. injection Hns' as <-.
    destruct (startResponse_ok plan now ss ns Hss Hns)
      as [q [ss' [Hq [_ [_ [_ [Hn _]]]]]]].
    rewrite Hq in H. injection H as <-.
    eexists. split; [exact Hn | simpl; lia].
  - destruct (simulateResponseProgress_inv _ _ _ _ H)
      as [-> | [t0 [ss [ns' [Hst [Hs [Hss Hns']]]]]]].
    + exists []. rewrite app_nil_r. split; [exact Hns | simpl; lia].
    + rewrite Hns in Hns'. injection Hns' as <-.
      destruct (simulateResponseProgress_active plan p now t0 ss ns Hst Hs Hss Hns)
        as [q [n [Hq [_ [_ [_ [_ [Hn _]]]]]]]].
      rewrite Hq in H. injection H as <-.
      eexists. split; [exact Hn | simpl; lia].
  - destruct (updateResponsePhase_notes _ _ _ _ _ ns H Hns) as [added [Ha Hl]].
    exists added. split; [exact Ha | lia].
  - unfold addResponseNote, pushNote in H. rewrite Hns in H.
    injection H as <-. eexists. split; [reflexivity | simpl; lia].
Qed.

(** X18.  The notes of a plan are an append-only log: over every
    sequence of [startResponse], [simulateResponseProgress],
    [updateResponsePhase] and [addResponseNote] calls that returns, the
    notes before are a prefix of the notes after, and each call adds at
    most two. *)
Theorem notes_append_only (ms : list (Mutation * time))
    (plan plan' : ResponsePlan) (ns : list Note) :
  mutateAll plan ms = Ok plan' ->
  notes plan = Some ns ->
  exists added,
    notes plan' = Some (ns ++ added)%list
    /\ (List.length added <= 2 * List.length ms)%nat.
Proof.
  revert plan ns. induction ms as [| [m now] ms IH]; intros plan ns; simpl.
  - intros [= <-] Hns. exists []. rewrite app_nil_r. split; [exact Hns | simpl; lia].
  - destruct (mutate m plan now) as [mid | e] eqn:Hm; simpl; [| discriminate].
    intros Hrun Hns.
    destruct (mutate_appends m plan mid now ns Hm Hns) as [a1 [H1 L1]].
    destruct (IH mid _ Hrun H1) as [a2 [H2 L2]].
    exists (a1 ++ a2)%list. rewrite app_assoc. split; [exact H2 |].
    rewrite length_app. lia.
Qed.

Lemma notes_append_only_witness :
  exists plan' added,
    mutateAll samplePlan
      [(Operate OpStartResponse, 1000);
       (AddNote "Analyst" "Escalated to vendor", 1500);
       (Operate (OpSimulateProgress 100), 2000)] = Ok plan'
    /\ notes plan' = Some ([] ++ added)%list
    /\ (List.length added <= 6)%nat.
Proof.
  eexists.
  assert (H : mutateAll samplePlan
                [(Operate OpStartResponse, 1000);
                 (AddNote "Analyst" "Escalated to vendor", 1500);
                 (Operate (OpSimulateProgress 100), 2000)] = Ok _)
    by (vm_compute; reflexivity).
  destruct (notes_append_only _ samplePlan _ [] H eq_refl) as [added [Ha Hl]].
  exists added. split; [exact H |]. split; [exact Ha | exact Hl].
Defined.

Lemma updateResponsePhase_status (plan plan' : ResponsePlan) (newPhase : jsstring)
    (extra : option string) (now : time) :
  updateResponsePhase plan newPhase extra now = Ok plan' ->
  phase plan' = newPhase
  /\ status plan'
     = if newPhase === phaseName LESSONS_LEARNED then COMPLETED else status plan.
Proof.
  unfold updateResponsePhase, pushNote.
  destruct (newPhase === phaseName LESSONS_LEARNED); simpl;
    (destruct (notes plan); simpl; [| discriminate]);
    (destruct extra as [s |]; [destruct (String.eqb s "") |]); simpl;
    intros [= <-]; auto.
Qed.

(** X19.  Completion is final for [simulateResponseProgress] and
    [updateResponsePhase]: over every sequence of these two that returns,
    a completed plan stays completed, whatever percentages and phases are
    passed (also phases before the current one, and strings that name no
    phase).  [startResponse] has no such guard: on a completed plan with
    steps and notes it returns a plan in progress whose identification
    phase is in progress. *)
Theorem completion_is_final (ops : list (Operation * time))
    (plan plan' : ResponsePlan) :
  run plan ops = Ok plan' ->
  status plan = COMPLETED ->
  existsb (fun o => isStart (fst o)) ops = false ->
  status plan' = COMPLETED
  /\ forall ss ns now,
       responseSteps plan' = Some ss -> notes plan' = Some ns ->
       exists reopened,
         startResponse plan' now = Ok reopened
         /\ status reopened = IN_PROGRESS
         /\ phase_status (entry (timeline reopened) IDENTIFICATION) = IN_PROGRESS.
Proof.
  intros Hrun Hc Hno.
  assert (Hfinal : status plan' = COMPLETED).
  { revert plan Hrun Hc Hno.
    induction ops as [| [op now] ops IH]; intros plan; simpl.
    - intros [= <-]. auto.
    - destruct (apply op plan now) as [mid | e] eqn:Hop; simpl; [| discriminate].
      intros Hrun Hc Hno. apply orb_false_iff in Hno. destruct Hno as [Hop' Hno].
      apply (IH mid Hrun); [| exact Hno].
      destruct op as [| p | newPhase extra]; simpl in *; [discriminate | |].
      + rewrite simulateResponseProgress_noop in Hop by auto.
        injection Hop as <-. exact Hc.
      + destruct (updateResponsePhase_status _ _ _ _ _ Hop) as [_ ->].
        rewrite Hc. now destruct (newPhase === phaseName LESSONS_LEARNED). }
  split; [exact Hfinal |].
  intros ss ns now Hss Hns.
  destruct (startResponse_ok plan' now ss ns Hss Hns)
    as [q [ss' [Hq [Hst [_ [_ [_ [_ He]]]]]]]].
  exists q. split; [exact Hq |]. split; [exact Hst |].
  rewrite He. reflexivity.
Qed.

Lemma completion_is_final_witness :
  exists plan',
    run finishedPlan [(OpSimulateProgress 10, 5000);
                      (OpUpdatePhase (Some "containment") None, 6000);
                      (OpUpdatePhase (Some "no such phase") None, 7000)]
    = Ok plan'
    /\ status plan' = COMPLETED
    /\ phase plan' = Some "no such phase".
Proof.
  eexists.
  assert (H : run finishedPlan
                [(OpSimulateProgress 10, 5000);
                 (OpUpdatePhase (Some "containment") None, 6000);
                 (OpUpdatePhase (Some "no such phase") None, 7000)] = Ok _)
    by (vm_compute; reflexivity).
  split; [exact H |].
  split; [| reflexivity].
  apply (completion_is_final _ finishedPlan _ H); vm_compute; reflexivity.
Defined.

(** X20.  [simulateIncidentResponse] throws for every alert and every
    percentage: it starts with [createResponsePlan], whose call of
    [generateResponseSteps] fails, so the exported entry point of the
    whole life cycle never returns a plan, a report or a percentage. *)
Theorem simulateIncidentResponse_throws (alert : ThreatAlert) (p : Q)
    (t0 t1 t2 : time) :
  simulateIncidentResponse alert p t0 t1 t2
  = Throw (TypeError "recommendedActions.forEach is not a function").
Proof.
  unfold simulateIncidentResponse, createResponsePlan.
  rewrite generateResponseSteps_alert. reflexivity.
Qed.

(** ** The timeline, continued *)

Lemma severityMultiplier_undefined (severity : jsstring) :
  (forall s, In s definedSeverities -> severity <> Some s) ->
  severityMultiplier severity = PrimFloat.nan.
Proof.
  intros H. unfold severityMultiplier, strict_eq.
  destruct severity as [s |]; [| reflexivity].
  unfold SEVERITY.CRITICAL, SEVERITY.HIGH, SEVERITY.MEDIUM, SEVERITY.LOW.
  destruct (String.eqb_spec s "low") as [-> | _];
    [exfalso; apply (H "low"); [vm_compute; auto | reflexivity] |].
  destruct (String.eqb_spec s "medium") as [-> | _];
    [exfalso; apply (H "medium"); [vm_compute; auto | reflexivity] |].
  destruct (String.eqb_spec s "high") as [-> | _];
    [exfalso; apply (H "high"); [vm_compute; auto | reflexivity] |].
  destruct (String.eqb_spec s "critical") as [-> | _];
    [exfalso; apply (H "critical"); [vm_compute; auto | reflexivity] |].
  reflexivity.
Qed.

(** X21.  For a severity outside the four defined ones (also a missing
    one) [createResponseTimeline] does not fall back to a default: the
    multiplier is undefined, all five estimated durations are NaN and so
    is the estimated completion time, for every threat type. *)
Theorem createResponseTimeline_unknown_severity (threatType severity : jsstring) :
  (forall s, In s definedSeverities -> severity <> Some s) ->
  forallb JsNumber.isNaN (durations (createResponseTimeline threatType severity))
  = true
  /\ JsNumber.isNaN
       (calculateEstimatedCompletionTime (createResponseTimeline threatType severity))
     = true.
Proof.
  intros H. unfold createResponseTimeline.
  rewrite (severityMultiplier_undefined severity H).
  split; split_threat_type threatType; vm_compute; reflexivity.
Qed.

Lemma createResponseTimeline_unknown_severity_witness :
  forallb JsNumber.isNaN
          (durations (createResponseTimeline (Some "Ransomware") (Some "severe")))
  = true
  /\ JsNumber.isNaN
       (calculateEstimatedCompletionTime
          (createResponseTimeline (Some "Ransomware") (Some "severe")))
     = true.
Proof.
  apply (createResponseTimeline_unknown_severity (Some "Ransomware") (Some "severe")).
  intros s Hs. apply severity_cases in Hs.
  destruct Hs as [-> | [-> | [-> | ->]]]; discriminate.
Defined.

(** X22.  The estimates grow with the severity and never shrink with the
    threat type: for every threat type and phase the estimated duration
    for low is at most that for medium, that for high, that for critical,
    and for each defined severity the duration is at least that of a
    threat type without adjustment. *)
Theorem createResponseTimeline_monotone (threatType : jsstring) (ph : Phase) :
  let d s := estimatedDuration (entry (createResponseTimeline threatType (Some s)) ph) in
  let plain s := estimatedDuration (entry (createResponseTimeline None (Some s)) ph) in
  PrimFloat.leb (d "low") (d "medium") = true
  /\ PrimFloat.leb (d "medium") (d "high") = true
  /\ PrimFloat.leb (d "high") (d "critical") = true
  /\ forall s, In s definedSeverities -> PrimFloat.leb (plain s) (d s) = true.
Proof.
  cbv zeta. unfold createResponseTimeline.
  split; [| split; [| split]].
  - split_threat_type threatType; destruct ph; vm_compute; reflexivity.
  - split_threat_type threatType; destruct ph; vm_compute; reflexivity.
  - split_threat_type threatType; destruct ph; vm_compute; reflexivity.
  - intros s Hs. apply severity_cases in Hs.
    destruct Hs as [-> | [-> | [-> | ->]]];
      split_threat_type threatType; destruct ph; vm_compute; reflexivity.
Qed.

(** ** The roster of a team *)

Lemma pick_defined (xs : list string) (r : Q) :
  xs <> [] -> (0 <= r)%Q -> (r < 1)%Q ->
  exists x, Roster.pick xs r = Some x /\ In x xs.
Proof.
  intros Hne H0 H1. unfold Roster.pick.
  assert (Hlen : 0 < Z.of_nat (List.length xs)).
  { destruct xs; [contradiction | simpl; lia]. }
  pose proof (floor_draw r _ H0 H1 Hlen) as [Hlo Hhi].
  destruct (Z.ltb_spec (Qfloor (r * inject_Z (Z.of_nat (List.length xs)))) 0); [lia |].
  destruct (nth_error xs (Z.to_nat (Qfloor (r * inject_Z (Z.of_nat (List.length xs))))))
    as [x |] eqn:E.
  - exists x. split; [reflexivity |]. eapply nth_error_In. exact E.
  - apply nth_error_None in E. lia.
Qed.

Lemma generateTeamMembers_defined (count : nat) (rand : Roster.draws) (pos : nat) :
  (forall n, (0 <= rand n)%Q /\ (rand n < 1)%Q) ->
  List.length (Roster.generateTeamMembers count rand pos) = count
  /\ forall m, In m (Roster.generateTeamMembers count rand pos) ->
               Roster.memberDefined m.
Proof.
  intros Hr. revert pos. induction count as [| count IH]; intros pos; simpl.
  - split; [reflexivity | intros m []].
  - destruct (IH (pos + 6)%nat) as [Hl Hm]. split; [now rewrite Hl |].
    intros m [<- | Hin]; [| now apply Hm].
    unfold Roster.memberDefined, Roster.generateMember.
    cbn [Roster.member_firstName Roster.member_lastName Roster.member_role
         Roster.expertise].
    split; [apply pick_defined; [discriminate | apply Hr | apply Hr] |].
    split; [apply pick_defined; [discriminate | apply Hr | apply Hr] |].
    split; [apply pick_defined; [discriminate | apply Hr | apply Hr] |].
    destruct (Hr (pos + 4)%nat) as [H0 H1].
    pose proof (floor_draw _ 5 H0 H1 eq_refl) as H5.
    change (inject_Z 5) with 5%Q in H5. lia.
Qed.

(** X23.  With every draw in [0, 1), [createResponseTeam] gives a team
    of three to five members, each with a first name, a last name and a
    role taken from the lists (no index falls outside them) and an
    expertise from 1 to 5, and a response time from 5 to 14 minutes: the
    15 of the comment in the source is never reached. *)
Theorem createResponseTeam_roster (name : string) (specialties : list string)
    (rand : Roster.draws) (pos : nat) :
  (forall n, (0 <= rand n)%Q /\ (rand n < 1)%Q) ->
  let team := Roster.createResponseTeam name specialties rand pos in
  (3 <= List.length (Roster.members team) <= 5)%nat
  /\ (forall m, In m (Roster.members team) -> Roster.memberDefined m)
  /\ 5 <= Roster.responseTime team <= 14.
Proof.
  intros Hr. unfold Roster.createResponseTeam. cbv zeta.
  cbn [Roster.members Roster.responseTime].
  destruct (Hr (pos + 1)%nat) as [H0 H1].
  pose proof (floor_draw _ 3 H0 H1 eq_refl) as H3.
  change (inject_Z 3) with 3%Q in H3.
  set (count := Z.to_nat (3 + Qfloor (rand (pos + 1)%nat * 3))) in *.
  destruct (generateTeamMembers_defined count rand (pos + 2)%nat Hr) as [Hl Hm].
  split; [rewrite Hl; unfold count; lia |]. split; [exact Hm |].
  destruct (Hr (pos + 2 + 6 * count)%nat) as [Ha Hb].
  pose proof (floor_draw _ 10 Ha Hb eq_refl) as H10.
  change (inject_Z 10) with 10%Q in H10. lia.
Qed.

Lemma createResponseTeam_roster_witness :
  let team := Roster.createResponseTeam "IoT Security" ["iot"; "sensor"; "camera"]
                (fun n => (Z.of_nat (n mod 7) # 7)%Q) 0 in
  (3 <= List.length (Roster.members team) <= 5)%nat
  /\ (forall m, In m (Roster.members team) -> Roster.memberDefined m)
  /\ 5 <= Roster.responseTime team <= 14.
Proof.
  apply (createResponseTeam_roster "IoT Security" ["iot"; "sensor"; "camera"]
           (fun n => (Z.of_nat (n mod 7) # 7)%Q) 0).
  intros n. pose proof (Nat.mod_upper_bound n 7 ltac:(discriminate)) as Hn.
  unfold Qle, Qlt. cbn [Qnum Qden]. lia.
Defined.
